(** * Solodit findings crawler: the incremental pagination-and-merge protocol

    A shallow embedding of [fetch_solodit.py]: the rate-limited page client
    ([fetch_page]), the category sync loop ([fetch_category]), the watermark
    file ([load_state], [save_state]) and the orchestrator ([main]).

    The outside world (HTTP endpoint, the two xlsx files, state.json, the
    sequence of sleeps) is an explicit [World] threaded through a small
    state-and-exception monad.  Wall-clock durations computed from
    [time.time()] are not modelled; a sleep is recorded as an event. *)

From Stdlib Require Import ZArith String Ascii DecimalString DecimalPos DecimalZ.
From stdpp Require Import base option list sorting strings gmap.

Local Open Scope string_scope.
Local Open Scope list_scope.
Local Open Scope Z_scope.

(** ** Configuration *)

Definition PAGE_SIZE : Z := 100.
Definition REQUEST_DELAY : Z := 3.
Definition MAX_RETRIES : nat := 3.
Definition RETRY_DELAY : Z := 5.

Definition HIGH_MEDIUM_FILE : string := "high_medium_findings.xlsx".
Definition LOW_GAS_FILE : string := "low_gas_findings.xlsx".

(** ** Data model *)

(** A spreadsheet cell, and a JSON scalar of the state file. *)
Inductive cell :=
| CInt (n : Z)
| CStr (s : string).

Inductive jval :=
| JNull
| JNum (n : Z)
| JStr (s : string).

Definition row := list cell.

Definition HEADERS : row :=
  [ CStr "id"; CStr "slug"; CStr "title"; CStr "impact";
    CStr "quality_score"; CStr "general_score";
    CStr "firm_name"; CStr "protocol_name";
    CStr "content"; CStr "summary";
    CStr "tags"; CStr "finders"; CStr "finders_count";
    CStr "source_link"; CStr "github_link"; CStr "pdf_link";
    CStr "contest_link"; CStr "contest_prize_txt";
    CStr "report_date" ].

(** A finding as the code reads it: every key may be absent.  [id] is the
    only key used by the control logic; the scalar columns are looked up by
    name in [scalars]; the two nested lists carry, per entry, the inner
    object when it is present and truthy ([Some t], with [t] its optional
    title or handle). *)
Record Finding := {
  id : option Z;
  scalars : gmap string cell;
  issues_issuetagscore : list (option (option string));
  issues_issue_finders : list (option (option string));
  report_date : option string
}.

Record Metadata := {
  totalResults : option Z;
  totalPages : option Z
}.

(** The [rateLimit] object of a body.  Its [reset] field, a number, only
    sets the length of the sleep that is taken when [remaining] is low,
    which the trace does not record. *)
Record RateLimit := {
  remaining : option Z
}.

(** The decoded JSON body of a page. *)
Record Data := {
  findings : option (list Finding);
  metadata : option Metadata;
  rateLimit : option RateLimit
}.

(** What one [requests.post] can do: answer 429, with or without an
    [X-RateLimit-Reset] header, answer a body that parses, or fail with a
    [RequestException] (transport error, or an error status turned into one
    by [raise_for_status]). *)
Inductive reply :=
| TooManyRequests (reset : option string)
| Json (data : Data)
| Failure.

(** The remote endpoint: its answer may depend on how many requests were
    sent before, on the impact filter and on the page number. *)
Definition Network := nat -> list string -> Z -> reply.

Inductive event :=
| Post (impact_filter : list string) (page : Z)
| SleepRateLimited
| SleepLowQuota
| SleepBackoff (delay : Z)
| SleepDelay (seconds : Z).

Record World := {
  sent : nat;
  trace : list event;
  state_json : option (gmap string jval);
  xlsx : gmap string (list row);
  utcnow : string
}.

Inductive exn :=
| RequestException
| ValueError
| TypeError.

(** ** The monad: state passing, exceptions, and fuel for the page loop *)

Inductive result (A : Type) :=
| Return (a : A) (w : World)
| Raise (e : exn) (w : World)
| OutOfFuel.
Arguments Return {A} a w.
Arguments Raise {A} e w.
Arguments OutOfFuel {A}.

Definition M (A : Type) := World -> result A.

Definition ret {A} (a : A) : M A := fun w => Return a w.
Definition raise {A} (e : exn) : M A := fun w => Raise e w.
Definition bind {A B} (m : M A) (k : A -> M B) : M B :=
  fun w =>
    match m w with
    | Return a w' => k a w'
    | Raise e w' => Raise e w'
    | OutOfFuel => OutOfFuel
    end.

Notation "x <- m ;; k" := (bind m (fun x => k))
  (at level 100, m at next level, right associativity).
Notation "m ;; k" := (bind m (fun _ => k))
  (at level 100, right associativity).

Definition log (e : event) (w : World) : World :=
  {| sent := sent w; trace := trace w ++ [e]; state_json := state_json w;
     xlsx := xlsx w; utcnow := utcnow w |}.

Definition sleep (e : event) : M unit := fun w => Return tt (log e w).

Definition post (net : Network) (impact_filter : list string) (page : Z) : M reply :=
  fun w =>
    Return (net (sent w) impact_filter page)
           {| sent := S (sent w); trace := trace w ++ [Post impact_filter page];
              state_json := state_json w; xlsx := xlsx w; utcnow := utcnow w |}.

Arguments ret {A} a w /.
Arguments raise {A} e w /.
Arguments bind {A B} m k w /.
Arguments sleep e w /.
Arguments post net impact_filter page w /.

(** A pure computation that may raise, run in the monad. *)
Definition try {A} (r : exn + A) : M A :=
  match r with
  | inr a => ret a
  | inl e => raise e
  end.

(** ** Python's [int] on text

    [int(s)] for a string [s]: the blanks around the literal are dropped;
    what is left is an optional sign followed by decimal digits, between
    which single underscores may stand.  Anything else raises
    [ValueError], and so does a literal of more than 4300 digits (the
    default limit of CPython on conversions between [str] and [int]).  The
    text read here is the value of a header, which [requests] decodes as
    Latin-1: one character per byte, the decimal digits are 0 to 9 and the
    blanks are the characters 9 to 13, 32, 133 and 160. *)
Definition is_blank (a : ascii) : bool :=
  let n := nat_of_ascii a in
  ((9 <=? n) && (n <=? 13) || (n =? 32) || (n =? 133) || (n =? 160))%nat.

Definition digit (a : ascii) : option Z :=
  let n := nat_of_ascii a in
  if ((48 <=? n) && (n <=? 57))%nat then Some (Z.of_nat n - 48) else None.

Fixpoint lstrip (s : list ascii) : list ascii :=
  match s with
  | a :: rest => if is_blank a then lstrip rest else s
  | [] => []
  end.

Definition strip (s : list ascii) : list ascii :=
  rev (lstrip (rev (lstrip s))).

(** The rest of a literal after a digit, [acc] being the value read so
    far: an underscore must be followed by a digit. *)
Fixpoint digits (acc : Z) (s : list ascii) : option Z :=
  match s with
  | [] => Some acc
  | a :: rest =>
      match digit a with
      | Some d => digits (10 * acc + d) rest
      | None =>
          if Ascii.eqb a "_" then
            match rest with
            | b :: _ =>
                match digit b with
                | Some _ => digits acc rest
                | None => None
                end
            | [] => None
            end
          else None
      end
  end.

Definition INT_MAX_STR_DIGITS : nat := 4300.

Definition unsigned (s : list ascii) : option Z :=
  match s with
  | a :: rest =>
      match digit a with
      | Some d =>
          if (INT_MAX_STR_DIGITS
              <? length (filter (fun c => is_Some (digit c)) s))%nat
          then None
          else digits d rest
      | None => None
      end
  | [] => None
  end.

Definition int_of_text (s : string) : exn + Z :=
  let literal := strip (list_ascii_of_string s) in
  let value :=
    match literal with
    | a :: rest =>
        if Ascii.eqb a "+" then unsigned rest
        else if Ascii.eqb a "-" then Z.opp <$> unsigned rest
        else unsigned literal
    | [] => None
    end in
  match value with
  | Some n => inr n
  | None => inl ValueError
  end.

(** [int(response.headers.get("X-RateLimit-Reset", time.time() + 60))]:
    the header is text when the answer carries it, and [int] raises
    [ValueError] on text that is no integer literal; the default is a
    number, on which [int] cannot fail.  The model has no clock: [None]
    stands for a minute from now, and the value only sets the length of the
    sleep, which the trace does not record. *)
Definition reset_time (reset : option string) : exn + option Z :=
  match reset with
  | Some s =>
      match int_of_text s with
      | inr n => inr (Some n)
      | inl e => inl e
      end
  | None => inr None
  end.

(** ** fetch_page *)

(** The body of [for attempt in range(MAX_RETRIES)], over the attempts that
    are left.  Running off the end of the loop is [return None]. *)
Fixpoint fetch_page_loop (net : Network) (page : Z) (impact_filter : list string)
    (attempts : list nat) : M (option Data) :=
  match attempts with
  | [] => ret None
  | attempt :: rest =>
      r <- post net impact_filter page ;;
      match r with
      | TooManyRequests reset =>
          try (reset_time reset) ;;
          sleep SleepRateLimited ;;
          fetch_page_loop net page impact_filter rest
      | Json data =>
          let quota := default 20 (rateLimit data ≫= remaining) in
          (if quota <? 2 then sleep SleepLowQuota else ret tt) ;;
          ret (Some data)
      | Failure =>
          if (attempt <? MAX_RETRIES - 1)%nat
          then sleep (SleepBackoff (RETRY_DELAY * 2 ^ Z.of_nat attempt)) ;;
               fetch_page_loop net page impact_filter rest
          else raise RequestException
      end
  end.

Definition fetch_page (net : Network) (page : Z) (impact_filter : list string)
    : M (option Data) :=
  fetch_page_loop net page impact_filter (seq 0 MAX_RETRIES).

(** ** Rows *)

Definition joined (entries : list (option (option string))) : string :=
  String.concat ", " (default "" <$> omap (fun e => e) entries).

Definition extract_tags (finding : Finding) : string :=
  joined (issues_issuetagscore finding).

Definition extract_finders (finding : Finding) : string :=
  joined (issues_issue_finders finding).

(** [finding.get(key, "")] on a scalar column. *)
Definition get (finding : Finding) (key : string) : cell :=
  default (CStr "") (scalars finding !! key).

Definition finding_to_row (finding : Finding) : row :=
  [ match id finding with Some n => CInt n | None => CStr "" end;
    get finding "slug";
    get finding "title";
    get finding "impact";
    get finding "quality_score";
    get finding "general_score";
    get finding "firm_name";
    get finding "protocol_name";
    get finding "content";
    get finding "summary";
    CStr (extract_tags finding);
    CStr (extract_finders finding);
    get finding "finders_count";
    get finding "source_link";
    get finding "github_link";
    get finding "pdf_link";
    get finding "contest_link";
    get finding "contest_prize_txt";
    CStr (default "" (report_date finding)) ].

(** ** Workbooks: a sheet is its list of rows, top to bottom *)

Definition create_workbook_with_headers : list row := [HEADERS].

Definition load_or_create_workbook (filepath : string) : M (list row) :=
  fun w =>
    match xlsx w !! filepath with
    | Some wb => Return wb w
    | None => Return create_workbook_with_headers w
    end.

(** [wb.save(xlsx_file)] *)
Definition save (wb : list row) (filepath : string) : M unit :=
  fun w =>
    Return tt {| sent := sent w; trace := trace w; state_json := state_json w;
                 xlsx := <[filepath := wb]> (xlsx w); utcnow := utcnow w |}.

(** ** The watermark file *)

Definition load_state : M (gmap string jval) :=
  fun w =>
    match state_json w with
    | Some state => Return state w
    | None =>
        Return (<["high_medium_max_id" := JStr "0"]>
                (<["low_gas_max_id" := JStr "0"]>
                (<["last_run" := JNull]>
                (<["high_medium_count" := JNum 0]>
                (<["low_gas_count" := JNum 0]> ∅))))) w
    end.

Definition save_state (state : gmap string jval) : M unit :=
  fun w =>
    Return tt {| sent := sent w; trace := trace w;
                 state_json := Some (<["last_run" := JStr (utcnow w)]> state);
                 xlsx := xlsx w; utcnow := utcnow w |}.

(** Python's [str] on an integer, and [int] on a value of the state file.
    [int] is given for a number and for a decimal string as [str] writes it
    (Python also accepts blanks, a leading plus sign and underscores, which
    [save_state] never produces). *)
Definition py_str (n : Z) : string := NilZero.string_of_int (Z.to_int n).

Definition py_int (v : jval) : exn + Z :=
  match v with
  | JNum n => inr n
  | JStr s =>
      match NilZero.int_of_string s with
      | Some d => inr (Z.of_int d)
      | None => inl ValueError
      end
  | JNull => inl TypeError
  end.

(** [value + n] for an integer [n]. *)
Definition py_add (v : jval) (n : Z) : exn + jval :=
  match v with
  | JNum m => inr (JNum (m + n))
  | _ => inl TypeError
  end.

Arguments load_or_create_workbook filepath w /.
Arguments save wb filepath w /.
Arguments load_state w /.
Arguments save_state state w /.

(** ** fetch_category *)

(** The local variables of the sync loop. *)
Record Session := {
  page : Z;
  new_findings : list Finding;
  new_max_id : Z;
  total_fetched : Z;
  should_stop : bool
}.

Definition finding_id (finding : Finding) : Z := default 0 (id finding).

(** [for finding in findings: ...], with its [break]. *)
Fixpoint scan (is_initial_fetch : bool) (current_max_id : Z)
    (fs : list Finding) (s : Session) : Session :=
  match fs with
  | [] => s
  | finding :: rest =>
      let new_max := if finding_id finding >? new_max_id s
                     then finding_id finding else new_max_id s in
      if negb is_initial_fetch && (finding_id finding <=? current_max_id)
      then {| page := page s; new_findings := new_findings s;
              new_max_id := new_max; total_fetched := total_fetched s;
              should_stop := true |}
      else scan is_initial_fetch current_max_id rest
             {| page := page s; new_findings := new_findings s ++ [finding];
                new_max_id := new_max; total_fetched := total_fetched s + 1;
                should_stop := should_stop s |}
  end.

(** [not data] for the body of a page: Python's empty dict is falsy. *)
Definition falsy (data : Data) : bool :=
  match findings data, metadata data, rateLimit data with
  | None, None, None => true
  | _, _, _ => false
  end.

Definition next_page (s : Session) : Session :=
  {| page := page s + 1; new_findings := new_findings s;
     new_max_id := new_max_id s; total_fetched := total_fetched s;
     should_stop := should_stop s |}.

(** [while not should_stop: ...]; [fuel] bounds the number of pages
    requested, since nothing in the code does. *)
Fixpoint sync_loop (net : Network) (impact_filter : list string)
    (is_initial_fetch : bool) (current_max_id : Z)
    (fuel : nat) (s : Session) : M Session :=
  if should_stop s then ret s else
  match fuel with
  | O => fun _ => OutOfFuel
  | S fuel' =>
      data <- fetch_page net (page s) impact_filter ;;
      match data with
      | None => ret s
      | Some data =>
          if falsy data then ret s else
          let total_pages := default 0 (metadata data ≫= totalPages) in
          match default [] (findings data) with
          | [] => ret s
          | fs =>
              let s' := scan is_initial_fetch current_max_id fs s in
              if page s >=? total_pages then ret s'
              else sleep (SleepDelay REQUEST_DELAY) ;;
                   sync_loop net impact_filter is_initial_fetch current_max_id
                     fuel' (next_page s')
          end
      end
  end.

Definition start (current_max_id : Z) : Session :=
  {| page := 1; new_findings := []; new_max_id := current_max_id;
     total_fetched := 0; should_stop := false |}.

Definition count_key (impact_filter : list string) : string :=
  if bool_decide ("HIGH" ∈ impact_filter) then "high_medium_count" else "low_gas_count".

(** The state dictionary is mutated in place by the code; here the updated
    dictionary is returned next to the number of new findings. *)
Definition fetch_category (net : Network) (fuel : nat)
    (impact_filter : list string) (xlsx_file max_id_key : string)
    (state : gmap string jval) : M (Z * gmap string jval) :=
  current_max_id <- try (py_int (default (JStr "0") (state !! max_id_key))) ;;
  let is_initial_fetch := current_max_id =? 0 in
  wb <- (if is_initial_fetch then ret create_workbook_with_headers
         else load_or_create_workbook xlsx_file) ;;
  s <- sync_loop net impact_filter is_initial_fetch current_max_id fuel
         (start current_max_id) ;;
  match new_findings s with
  | [] => ret tt
  | _ => save (wb ++ (finding_to_row <$> reverse (new_findings s))) xlsx_file
  end ;;
  let state := <[max_id_key := JStr (py_str (new_max_id s))]> state in
  count <- try (py_add (default (JNum 0) (state !! count_key impact_filter))
                  (Z.of_nat (length (new_findings s)))) ;;
  ret (Z.of_nat (length (new_findings s)),
       <[count_key impact_filter := count]> state).

(** ** main *)

(** The API key only travels in a request header; reading it from the
    environment is left out, as are the progress messages. *)
Definition main (net : Network) (fuel : nat) : M Z :=
  state <- load_state ;;
  r <- fetch_category net fuel ["HIGH"; "MEDIUM"]
         HIGH_MEDIUM_FILE "high_medium_max_id" state ;;
  let total_new := 0 + r.1 in
  r <- fetch_category net fuel ["LOW"; "GAS"]
         LOW_GAS_FILE "low_gas_max_id" r.2 ;;
  let total_new := total_new + r.1 in
  save_state r.2 ;;
  ret total_new.

(** ** A remote that honours the request

    The request built by [fetch_page] asks for page [page] of size
    [PAGE_SIZE], sorted by recency, newest first.  [serve ds] is the endpoint
    holding the listing [ds] (already in the order it is served) for the
    category that is asked: it never fails and never rate-limits. *)

Definition page_of (ds : list Finding) (p : Z) : list Finding :=
  take (Z.to_nat PAGE_SIZE) (drop (Z.to_nat (PAGE_SIZE * (p - 1))) ds).

Definition pages_of (ds : list Finding) : Z :=
  (Z.of_nat (length ds) + PAGE_SIZE - 1) / PAGE_SIZE.

Definition page_data (ds : list Finding) (p : Z) : Data :=
  {| findings := Some (page_of ds p);
     metadata := Some {| totalResults := Some (Z.of_nat (length ds));
                         totalPages := Some (pages_of ds) |};
     rateLimit := Some {| remaining := Some 20 |} |}.

Definition serve (ds : list Finding) : Network :=
  fun _ _ p => Json (page_data ds p).

(** A finding that has only an id, and the listing of such findings with
    the given ids, last id first. *)
Definition bare (n : Z) : Finding :=
  {| id := Some n; scalars := ∅; issues_issuetagscore := [];
     issues_issue_finders := []; report_date := None |}.

Definition newest_first (ids : list Z) : list Finding := bare <$> reverse ids.

(** The world before the first run: nothing on disk, nothing sent. *)
Definition fresh : World :=
  {| sent := 0; trace := []; state_json := None; xlsx := ∅;
     utcnow := "2024-01-01T00:00:00+00:00" |}.

(** The first cell of a row, and the first column of a sheet below the
    header row: the ids that are stored. *)
Definition first_cell (r : row) : cell := default (CStr "") (head r).

Definition stored_ids (wb : list row) : list cell := first_cell <$> tail wb.

(** ** Unreliable remotes *)

(** An endpoint that answers 429 to the first three requests and serves
    [ds] from the fourth on. *)
Definition limited_thrice (ds : list Finding) : Network :=
  fun k impact_filter p =>
    if (k <? 3)%nat then TooManyRequests None else serve ds k impact_filter p.

(** A body with the given findings that announces [pages] pages. *)
Definition body (fs : list Finding) (pages : Z) : Data :=
  {| findings := Some fs;
     metadata := Some {| totalResults := None; totalPages := Some pages |};
     rateLimit := None |}.

(** An endpoint whose first page holds ids 4 and 3 of two pages, and whose
    second page is out of reach: every request for it fails. *)
Definition second_page_down : Network :=
  fun _ _ p => if p =? 1 then Json (body [bare 4; bare 3] 2) else Failure.

(** The same listing, but the second page is rate-limited instead. *)
Definition second_page_limited : Network :=
  fun _ _ p =>
    if p =? 1 then Json (body [bare 4; bare 3] 2) else TooManyRequests None.


(** A body with the given findings and no page count at all. *)
Definition body_without_pages (fs : list Finding) : Data :=
  {| findings := Some fs; metadata := Some {| totalResults := None; totalPages := None |};
     rateLimit := None |}.

(** An endpoint with a full first page, ids 300 down to 201, more behind
    it, and no [totalPages] in its answers. *)
Definition pages_unannounced : Network :=
  fun _ _ p =>
    Json (body_without_pages (page_of (newest_first (seqZ 1 300)) p)).

(** A disk on which a HIGH/MEDIUM sheet with one finding, id 7, is left
    over while state.json is gone. *)
Definition with_old_sheet : World :=
  {| sent := 0; trace := []; state_json := None;
     xlsx := {[ HIGH_MEDIUM_FILE := [HEADERS; finding_to_row (bare 7)] ]};
     utcnow := "2024-01-01T00:00:00+00:00" |}.

(** ** Vocabulary of the statements *)

(** Two worlds with the same files: only requests and sleeps separate them. *)
Definition same_disk (w w' : World) : Prop :=
  state_json w' = state_json w /\ xlsx w' = xlsx w /\ utcnow w' = utcnow w.

(** The running maximum kept by the sync loop, over a list of findings. *)
Definition max_id (m : Z) (fs : list Finding) : Z :=
  foldl (fun m f => Z.max m (finding_id f)) m fs.

(** The findings delivered before the first one at or below the watermark. *)
Fixpoint newer (current_max_id : Z) (fs : list Finding) : list Finding :=
  match fs with
  | [] => []
  | f :: rest =>
      if current_max_id <? finding_id f then f :: newer current_max_id rest
      else []
  end.

(** What a sync is expected to keep of a listing. *)
Definition fetched (is_initial_fetch : bool) (current_max_id : Z)
    (fs : list Finding) : list Finding :=
  if is_initial_fetch then fs else newer current_max_id fs.

(** The session after the inner loop kept [kept] and left the stop flag at
    [stop]. *)
Definition after_scan (kept : list Finding) (stop : bool) (s : Session) : Session :=
  {| page := page s; new_findings := new_findings s ++ kept;
     new_max_id := max_id (new_max_id s) kept;
     total_fetched := total_fetched s + Z.of_nat (length kept);
     should_stop := stop |}.

(** Some finding of the list is at or below the watermark. *)
Definition has_boundary (current_max_id : Z) (fs : list Finding) : bool :=
  existsb (fun f => finding_id f <=? current_max_id) fs.

(** The sheet a sync starts from, and the world once it has written the
    new findings [new] (nothing is written when there are none). *)
Definition opened (current_max_id : Z) (xlsx_file : string) (w : World) : list row :=
  if current_max_id =? 0 then create_workbook_with_headers
  else default create_workbook_with_headers (xlsx w !! xlsx_file).

Definition persisted (wb : list row) (new : list Finding) (xlsx_file : string)
    (w : World) : World :=
  match new with
  | [] => w
  | _ =>
      {| sent := sent w; trace := trace w; state_json := state_json w;
         xlsx := <[xlsx_file := wb ++ (finding_to_row <$> reverse new)]> (xlsx w);
         utcnow := utcnow w |}
  end.

(** The watermark a state dictionary holds under a key. *)
Definition watermark (state : gmap string jval) (max_id_key : string) : exn + Z :=
  py_int (default (JStr "0") (state !! max_id_key)).

(** What the page loop may do to a session, whatever the network answers:
    append findings, all above the watermark on an incremental sync, and
    keep their count and their maximum. *)
Definition extends (is_initial_fetch : bool) (current_max_id : Z)
    (s s' : Session) : Prop :=
  exists kept,
    new_findings s' = new_findings s ++ kept
    /\ new_max_id s' = max_id (new_max_id s) kept
    /\ total_fetched s' = total_fetched s + Z.of_nat (length kept)
    /\ (is_initial_fetch = false ->
        Forall (fun f => current_max_id < finding_id f) kept).

(** The offset in the listing of the first finding of a page. *)
Definition offset (p : Z) : nat := Z.to_nat (PAGE_SIZE * (p - 1)).

(** A network whose every successful answer for the category carries the
    page of the listing [ds] that was asked; it may still fail, rate-limit,
    or report any page count. *)
Definition delivers (net : Network) (impact_filter : list string)
    (ds : list Finding) : Prop :=
  forall k p data,
    net k impact_filter p = Json data ->
    default [] (findings data) = page_of ds p.

(** The state dictionary after a sync that left the watermark at [m] and
    the cumulative count at [k]. *)
Definition updated (state : gmap string jval) (max_id_key : string)
    (impact_filter : list string) (m k : Z) : gmap string jval :=
  <[count_key impact_filter := JNum k]> (<[max_id_key := JStr (py_str m)]> state).

(** The cumulative count a state dictionary holds for a category, when it
    is a number. *)
Definition counted (state : gmap string jval) (impact_filter : list string)
    : option Z :=
  match default (JNum 0) (state !! count_key impact_filter) with
  | JNum k => Some k
  | _ => None
  end.

(** A listing served newest first: ids strictly decreasing. *)
Definition descending (ds : list Finding) : Prop :=
  StronglySorted (flip Z.lt) (finding_id <$> ds).

(** The sheet a sync finds under a path: the rows of the file, or the
    header row alone when there is no file. *)
Definition sheet (w : World) (xlsx_file : string) : list row :=
  default create_workbook_with_headers (xlsx w !! xlsx_file).

(** A sheet in order under watermark [c]: below its first row the first
    column holds integers that increase strictly from top to bottom, none
    above [c]. *)
Definition in_order (wb : list row) (c : Z) : Prop :=
  wb <> [] /\
  exists ids, stored_ids wb = CInt <$> ids
    /\ StronglySorted Z.lt ids
    /\ Forall (fun i => i <= c) ids.

(** A computation that returns, respectively raises, with a result and a
    world that satisfy [P]. *)
Definition returns {A} (r : result A) (P : A -> World -> Prop) : Prop :=
  match r with
  | Return a w => P a w
  | _ => False
  end.

Definition raises {A} (r : result A) (P : exn -> World -> Prop) : Prop :=
  match r with
  | Raise e w => P e w
  | _ => False
  end.


(** ** Vocabulary of the further properties *)

(** The number of requests in a stretch of the trace. *)
Fixpoint requests (evs : list event) : nat :=
  match evs with
  | [] => 0
  | Post _ _ :: rest => S (requests rest)
  | _ :: rest => requests rest
  end.

(** What the page client may add to the trace while it fetches page [p]
    for [impact_filter]: requests for that page and that filter, and its
    own sleeps (the delay between pages is the caller's). *)
Definition of_page (impact_filter : list string) (p : Z) (e : event) : Prop :=
  match e with
  | Post f q => f = impact_filter /\ q = p
  | SleepDelay _ => False
  | _ => True
  end.

(** A 429 whose reset header, when it has one, is an integer literal. *)
Definition rate_limited (r : reply) : Prop :=
  exists reset t, r = TooManyRequests reset /\ reset_time reset = inr t.



(** An endpoint that serves the first page of [ds] and answers 429 to every
    request for another page. *)
Definition first_page_only (ds : list Finding) : Network :=
  fun _ _ p => if p =? 1 then Json (page_data ds 1) else TooManyRequests None.

(** The disk is in order: state.json (or the default state) holds a
    readable watermark for each category, and each sheet is in order under
    the watermark of its category. *)
Definition disk_in_order (w : World) : Prop :=
  exists state cH cL,
    load_state w = Return state w
    /\ watermark state "high_medium_max_id" = inr cH
    /\ watermark state "low_gas_max_id" = inr cL
    /\ in_order (sheet w HIGH_MEDIUM_FILE) cH
    /\ in_order (sheet w LOW_GAS_FILE) cL.

(** An endpoint that serves one listing per category. *)
Definition serve_both (high_medium low_gas : list Finding) : Network :=
  fun k impact_filter p =>
    if bool_decide ("HIGH" ∈ impact_filter)
    then serve high_medium k impact_filter p
    else serve low_gas k impact_filter p.

(** ** get_existing_ids *)

(** Python's [bool] and [str] on the value of a cell. *)
Definition cell_truthy (c : cell) : bool :=
  match c with
  | CInt n => negb (n =? 0)
  | CStr s => negb (String.eqb s "")
  end.

Definition cell_str (c : cell) : string :=
  match c with
  | CInt n => py_str n
  | CStr s => s
  end.

(** The body of [for row in ws.iter_rows(min_row=2, max_col=1, ...)]: the
    value of the first cell, if the row has one, is added as a string when
    it is truthy. *)
Definition add_id (ids : gset string) (r : row) : gset string :=
  match head r with
  | Some c => if cell_truthy c then ids ∪ {[cell_str c]} else ids
  | None => ids
  end.

Definition get_existing_ids (filepath : string) : M (gset string) :=
  fun w =>
    match xlsx w !! filepath with
    | None => Return ∅ w
    | Some wb => Return (foldl add_id ∅ (tail wb)) w
    end.

(** The ids of a list of findings, as [get_existing_ids] spells them. *)
Definition id_strings (fs : list Finding) : gset string :=
  list_to_set ((fun f => py_str (finding_id f)) <$> fs).

(** ** The trace of a sync *)

(** Two requests follow each other with no sleep in between. *)
Fixpoint back_to_back (evs : list event) : bool :=
  match evs with
  | [] => false
  | Post _ _ :: rest =>
      match rest with
      | Post _ _ :: _ => true
      | _ => back_to_back rest
      end
  | _ :: rest => back_to_back rest
  end.

(** A stretch of the trace walks the pages in order from page [p]: every
    request is for [impact_filter] and for the page that is current, and
    the current page moves on by one at each delay between pages, which
    lasts [REQUEST_DELAY] seconds. *)
Fixpoint walks_from (impact_filter : list string) (p : Z) (evs : list event)
    : Prop :=
  match evs with
  | [] => True
  | Post f q :: rest => f = impact_filter /\ q = p /\ walks_from impact_filter p rest
  | SleepDelay d :: rest =>
      d = REQUEST_DELAY /\ walks_from impact_filter (p + 1) rest
  | _ :: rest => walks_from impact_filter p rest
  end.



(** The number of the last page a sync has to ask of a listing [ds] served
    page by page, when [new] are the findings ahead of the boundary: the
    page that holds the finding after them, but no page beyond the last
    and at least the first. *)
Definition pages_needed (ds new : list Finding) : Z :=
  Z.max 1 (Z.min (pages_of ds) (Z.of_nat (length new) / PAGE_SIZE + 1)).

(** * Properties *)

(** ** Integers in the state file *)

Lemma py_int_py_str (n : Z) : py_int (JStr (py_str n)) = inr n.
Proof.
  unfold py_int, py_str.
  rewrite NilZero.isi.
  - now rewrite DecimalZ.of_to.
  - destruct n; simpl; try discriminate.
    intros [= H]. now apply Unsigned.to_uint_nonnil in H.
  - destruct n; simpl; try discriminate.
    intros [= H]. now apply Unsigned.to_uint_nonnil in H.
Qed.

(** ** Worlds *)

(** Closes [same_disk] goals between a world and an explicit update of it. *)
Ltac disk :=
  intros; unfold same_disk, log in *; simpl in *;
  repeat match goal with H : _ /\ _ |- _ => destruct H end;
  repeat split; congruence.

Lemma same_disk_refl w : same_disk w w.
Proof. disk. Qed.

Lemma same_disk_trans w1 w2 w3 :
  same_disk w1 w2 -> same_disk w2 w3 -> same_disk w1 w3.
Proof. disk. Qed.

Lemma same_disk_log e w : same_disk w (log e w).
Proof. disk. Qed.

Lemma returns_ex {A} (r : result A) P :
  returns r P -> exists a w, r = Return a w /\ P a w.
Proof. destruct r; simpl; [eauto|done..]. Qed.



Lemma raises_ex {A} (r : result A) P :
  raises r P -> exists e w, r = Raise e w /\ P e w.
Proof. destruct r; simpl; [done|eauto|done]. Qed.

(** ** fetch_page *)

Lemma int_of_text_raises s e : int_of_text s = inl e -> e = ValueError.
Proof.
  unfold int_of_text. cbv zeta.
  match goal with
  | |- match ?value with Some _ => _ | None => _ end = _ -> _ =>
      destruct value
  end; [done|]. by intros [= <-].
Qed.

Lemma reset_time_raises reset e : reset_time reset = inl e -> e = ValueError.
Proof.
  destruct reset as [s|]; simpl; [|done].
  destruct (int_of_text s) as [e'|n] eqn:Hs; [|done].
  intros [= <-]. by apply int_of_text_raises in Hs.
Qed.

Section FetchPage.
Variable net : Network.
Variable impact_filter : list string.

(** The client never touches the files, whatever the network does. *)
Lemma fetch_page_loop_disk p attempts w :
  match fetch_page_loop net p impact_filter attempts w with
  | Return _ w' => same_disk w w'
  | Raise e w' => same_disk w w' /\ (e = RequestException \/ e = ValueError)
  | OutOfFuel => False
  end.
Proof.
  revert w. induction attempts as [|attempt rest IH]; intros w; simpl.
  - apply same_disk_refl.
  - destruct (net (sent w) impact_filter p) as [reset|data|]; simpl.
    + destruct (reset_time reset) as [e|t] eqn:Hreset; simpl.
      { apply reset_time_raises in Hreset. split; [disk|by right]. }
      match goal with |- context [fetch_page_loop _ _ _ rest ?w1] =>
        specialize (IH w1); destruct (fetch_page_loop net p impact_filter rest w1)
      end; try done; try (destruct IH as [IH He]; split; [|done]); disk.
    + destruct (default 20 (rateLimit data ≫= remaining) <? 2); simpl;
        disk.
    + destruct (attempt <? 2)%nat; simpl; [|split; [disk|by left]].
      match goal with |- context [fetch_page_loop _ _ _ rest ?w1] =>
        specialize (IH w1); destruct (fetch_page_loop net p impact_filter rest w1)
      end; try done; try (destruct IH as [IH He]; split; [|done]); disk.
Qed.

(** A body handed to the caller is one the network sent for that page. *)
Lemma fetch_page_loop_Some p attempts w data w' :
  fetch_page_loop net p impact_filter attempts w = Return (Some data) w' ->
  exists k, net k impact_filter p = Json data.
Proof.
  revert w. induction attempts as [|attempt rest IH]; intros w; simpl.
  - by intros [=].
  - destruct (net (sent w) impact_filter p) as [reset|d|] eqn:Hnet; simpl.
    + destruct (reset_time reset); simpl; [by intros [=]|]. apply IH.
    + destruct (default 20 (rateLimit d ≫= remaining) <? 2); simpl;
        intros [= -> _]; eauto.
    + destruct (attempt <? 2)%nat; simpl; [|by intros [=]].
      apply IH.
Qed.

Lemma fetch_page_disk p w :
  match fetch_page net p impact_filter w with
  | Return _ w' => same_disk w w'
  | Raise e w' => same_disk w w' /\ (e = RequestException \/ e = ValueError)
  | OutOfFuel => False
  end.
Proof. apply fetch_page_loop_disk. Qed.

Lemma fetch_page_Some p w data w' :
  fetch_page net p impact_filter w = Return (Some data) w' ->
  exists k, net k impact_filter p = Json data.
Proof. apply fetch_page_loop_Some. Qed.
End FetchPage.

(** Against [serve], one request per page and no sleep inside the client. *)
Lemma fetch_page_serve ds p impact_filter w :
  exists w', fetch_page (serve ds) p impact_filter w
             = Return (Some (page_data ds p)) w' /\ same_disk w w'.
Proof. eexists. split; [reflexivity|]. disk. Qed.

(** ** The inner loop *)

Lemma max_id_le m fs : m <= max_id m fs.
Proof.
  revert m. induction fs as [|f fs IH]; intros m; simpl; [lia|].
  etrans; [|apply IH]. lia.
Qed.

Lemma max_id_app m fs gs : max_id m (fs ++ gs) = max_id (max_id m fs) gs.
Proof. apply foldl_app. Qed.

Lemma max_id_mono m m' fs : m <= m' -> max_id m fs <= max_id m' fs.
Proof.
  revert m m'. induction fs as [|f fs IH]; intros m m' Hm; simpl; [done|].
  apply IH. lia.
Qed.

Lemma max_id_ge m fs f : f ∈ fs -> finding_id f <= max_id m fs.
Proof.
  revert m. induction fs as [|g fs IH]; intros m; [by intros ?%elem_of_nil|].
  intros [->|Hin]%elem_of_cons; simpl.
  - etrans; [|apply max_id_le]. lia.
  - by apply IH.
Qed.

Lemma newer_Forall c fs : Forall (fun f => c < finding_id f) (newer c fs).
Proof.
  induction fs as [|f fs IH]; simpl; [constructor|].
  destruct (Z.ltb_spec c (finding_id f)); by constructor.
Qed.

Lemma newer_no_boundary c fs : has_boundary c fs = false -> newer c fs = fs.
Proof.
  induction fs as [|f fs IH]; simpl; [done|].
  intros [Hf Hfs]%orb_false_elim.
  apply Z.leb_gt in Hf. apply Z.ltb_lt in Hf. rewrite Hf. by rewrite IH.
Qed.

Lemma newer_boundary c fs gs :
  has_boundary c fs = true -> newer c (fs ++ gs) = newer c fs.
Proof.
  induction fs as [|f fs IH]; simpl; [done|].
  destruct (Z.ltb_spec c (finding_id f)) as [Hlt|Hge]; [|done].
  apply Z.leb_gt in Hlt. rewrite Hlt. simpl. intros ?. by rewrite IH.
Qed.

Lemma newer_app_kept c fs gs :
  newer c fs = fs -> newer c (fs ++ gs) = fs ++ newer c gs.
Proof.
  induction fs as [|f fs IH]; simpl; [done|].
  destruct (c <? finding_id f); [|done].
  intros [= H]. by rewrite IH.
Qed.

(** The inner loop keeps the findings ahead of the boundary, counts them,
    follows their maximum, and raises the stop flag exactly when it met a
    finding at or below the watermark. *)
Lemma scan_initial c fs s :
  scan true c fs s = after_scan fs (should_stop s) s.
Proof.
  revert s. induction fs as [|f fs IH]; intros s; simpl.
  - destruct s; unfold after_scan; simpl. f_equal; [by rewrite app_nil_r|lia].
  - rewrite IH. unfold after_scan; simpl. f_equal.
    + by rewrite <- app_assoc.
    + f_equal. destruct (Z.gtb_spec (finding_id f) (new_max_id s)); lia.
    + lia.
Qed.

Lemma scan_incremental c fs s :
  c <= new_max_id s ->
  scan false c fs s
  = after_scan (newer c fs) (should_stop s || has_boundary c fs) s.
Proof.
  revert s. induction fs as [|f fs IH]; intros s Hc; simpl.
  - destruct s; unfold after_scan; simpl.
    f_equal; [by rewrite app_nil_r|lia|by rewrite orb_false_r].
  - destruct (Z.leb_spec (finding_id f) c) as [Hle|Hgt]; simpl.
    + destruct (Z.ltb_spec c (finding_id f)); [lia|].
      unfold after_scan; simpl. f_equal.
      * by rewrite app_nil_r.
      * destruct (Z.gtb_spec (finding_id f) (new_max_id s)); lia.
      * lia.
      * by rewrite orb_true_r.
    + destruct (Z.ltb_spec c (finding_id f)); [|lia].
      rewrite IH; simpl.
      * unfold after_scan; simpl. f_equal.
        -- by rewrite <- app_assoc.
        -- f_equal. destruct (Z.gtb_spec (finding_id f) (new_max_id s)); lia.
        -- lia.
      * destruct (Z.gtb_spec (finding_id f) (new_max_id s)); lia.
Qed.

Lemma scan_page init c fs s : page (scan init c fs s) = page s.
Proof.
  revert s. induction fs as [|f fs IH]; intros s; simpl; [done|].
  destruct (negb init && (finding_id f <=? c)); [done|]. by rewrite IH.
Qed.

Lemma scan_fetched init c fs s :
  (init = false -> c <= new_max_id s) ->
  scan init c fs s
  = after_scan (fetched init c fs)
      (should_stop s || negb init && has_boundary c fs) s.
Proof.
  destruct init; simpl; intros Hc.
  - rewrite scan_initial. by rewrite orb_false_r.
  - by apply scan_incremental, Hc.
Qed.

(** ** Sessions that only grow *)

Lemma extends_refl init c s : extends init c s s.
Proof.
  exists []. rewrite app_nil_r. simpl. repeat split; [lia|by constructor].
Qed.

Lemma extends_trans init c s1 s2 s3 :
  extends init c s1 s2 -> extends init c s2 s3 -> extends init c s1 s3.
Proof.
  intros (k1 & Hf1 & Hm1 & Ht1 & Hc1) (k2 & Hf2 & Hm2 & Ht2 & Hc2).
  exists (k1 ++ k2). repeat split.
  - by rewrite Hf2, Hf1, app_assoc.
  - by rewrite Hm2, Hm1, max_id_app.
  - rewrite Ht2, Ht1, length_app. lia.
  - intros Hi. apply Forall_app. auto.
Qed.

Lemma extends_scan init c fs s :
  (init = false -> c <= new_max_id s) -> extends init c s (scan init c fs s).
Proof.
  intros Hc. rewrite scan_fetched by done.
  exists (fetched init c fs). repeat split.
  intros ->. apply newer_Forall.
Qed.

Lemma extends_next_page init c s : extends init c s (next_page s).
Proof.
  exists []. simpl. rewrite app_nil_r. repeat split; [lia|by constructor].
Qed.

Lemma extends_max init c s s' :
  extends init c s s' -> new_max_id s <= new_max_id s'.
Proof. intros (k & _ & -> & _). apply max_id_le. Qed.

(** ** The page loop, against any network *)

Section SyncLoop.
Variable net : Network.
Variable impact_filter : list string.
Variable init : bool.
Variable c : Z.

Let loop := sync_loop net impact_filter init c.

(** One turn of the [while]. *)
Lemma sync_loop_unfold fuel s w :
  loop (S fuel) s w =
  if should_stop s then Return s w else
  match fetch_page net (page s) impact_filter w with
  | Return None w1 => Return s w1
  | Return (Some data) w1 =>
      if falsy data then Return s w1 else
      match default [] (findings data) with
      | [] => Return s w1
      | fs =>
          let s' := scan init c fs s in
          if page s >=? default 0 (metadata data ≫= totalPages)
          then Return s' w1
          else loop fuel (next_page s') (log (SleepDelay REQUEST_DELAY) w1)
      end
  | Raise e w1 => Raise e w1
  | OutOfFuel => OutOfFuel
  end.
Proof.
  unfold loop. simpl. destruct (should_stop s); [done|]. simpl.
  destruct (fetch_page net (page s) impact_filter w) as [[data|] w1|e w1|];
    simpl; try done.
  destruct (falsy data); [done|].
  destruct (default [] (findings data)); [done|].
  by destruct (page s >=? default 0 (metadata data ≫= totalPages)).
Qed.

Lemma sync_loop_stopped fuel s w :
  should_stop s = true -> loop fuel s w = Return s w.
Proof. unfold loop. intros Hs. destruct fuel; simpl; by rewrite Hs. Qed.

Lemma sync_loop_no_fuel s w :
  should_stop s = false -> loop 0 s w = OutOfFuel.
Proof. unfold loop. intros Hs. simpl. by rewrite Hs. Qed.

Local Abbreviation ext := (extends init c).

Lemma sync_loop_inv fuel s w :
  (init = false -> c <= new_max_id s) ->
  match loop fuel s w with
  | Return s' w' => same_disk w w' /\ ext s s'
  | Raise e w' => same_disk w w' /\ (e = RequestException \/ e = ValueError)
  | OutOfFuel => True
  end.
Proof.
  revert s w. induction fuel as [|fuel IH]; intros s w Hc.
  - destruct (should_stop s) eqn:Hs.
    + rewrite sync_loop_stopped by done. split; [disk|apply (extends_refl init c)].
    + by rewrite sync_loop_no_fuel.
  - rewrite sync_loop_unfold.
    destruct (should_stop s); [split; [disk|apply (extends_refl init c)]|].
    pose proof (fetch_page_disk net impact_filter (page s) w) as Hd.
    destruct (fetch_page net (page s) impact_filter w) as [[data|] w1|e w1|];
      [| |  |done].
    + destruct (falsy data); [split; [done|apply (extends_refl init c)]|].
      destruct (default [] (findings data)) as [|f fs] eqn:Hfs;
        [split; [done|apply (extends_refl init c)]|].
      pose proof (extends_scan init c (f :: fs) s Hc) as Hscan.
      cbv zeta.
      destruct (page s >=? default 0 (metadata data ≫= totalPages));
        [by split|].
      match goal with |- context [loop fuel ?s1 ?w2] =>
        specialize (IH s1 w2); destruct (loop fuel s1 w2) end.
      * destruct IH as [Hd' He].
        { intros Hi. etrans; [exact (Hc Hi)|]. by apply (extends_max init c). }
        split; [disk|]. eapply (extends_trans init c); [exact Hscan|exact He].
      * destruct IH as [Hd' He].
        { intros Hi. etrans; [exact (Hc Hi)|]. by apply (extends_max init c). }
        split; [disk|done].
      * done.
    + split; [done|apply (extends_refl init c)].
    + done.
Qed.
End SyncLoop.

(** ** fetch_category, step by step *)

Lemma fetch_category_unfold net fuel impact_filter xlsx_file max_id_key state w :
  fetch_category net fuel impact_filter xlsx_file max_id_key state w =
  match watermark state max_id_key with
  | inl e => Raise e w
  | inr c =>
      match sync_loop net impact_filter (c =? 0) c fuel (start c) w with
      | Return s w1 =>
          let w2 := persisted (opened c xlsx_file w1) (new_findings s) xlsx_file w1 in
          let n := Z.of_nat (length (new_findings s)) in
          let state1 := <[max_id_key := JStr (py_str (new_max_id s))]> state in
          match py_add (default (JNum 0) (state1 !! count_key impact_filter)) n with
          | inr count => Return (n, <[count_key impact_filter := count]> state1) w2
          | inl e => Raise e w2
          end
      | Raise e w1 => Raise e w1
      | OutOfFuel => OutOfFuel
      end
  end.
Proof.
  unfold fetch_category, watermark. simpl.
  destruct (py_int (default (JStr "0") (state !! max_id_key))) as [e|c]; simpl;
    [done|].
  pose proof (sync_loop_inv net impact_filter (c =? 0) c fuel (start c) w) as Hinv.
  assert (Hw : forall w1, same_disk w w1 ->
    (if c =? 0 then ret create_workbook_with_headers
     else load_or_create_workbook xlsx_file) w
    = Return (opened c xlsx_file w1) w).
  { intros w1 (_ & Hx & _). unfold opened. rewrite Hx.
    destruct (c =? 0); simpl; [done|]. by destruct (xlsx w !! xlsx_file). }
  destruct (sync_loop net impact_filter (c =? 0) c fuel (start c) w)
    as [s w1|e w1|] eqn:Hloop.
  - destruct Hinv as [Hd _]; [simpl; lia|].
    rewrite (Hw w1 Hd). rewrite Hloop.
    unfold persisted.
    destruct (new_findings s) as [|f fs]; simpl.
    + by destruct (py_add _ _).
    + by destruct (py_add _ _).
  - rewrite (Hw w (same_disk_refl w)). by rewrite Hloop.
  - rewrite (Hw w (same_disk_refl w)). by rewrite Hloop.
Qed.

(** ** The page loop, along a listing *)

Lemma fetched_app_kept init c fs gs :
  fetched init c fs = fs ->
  fetched init c (fs ++ gs) = fs ++ fetched init c gs.
Proof. destruct init; simpl; [done|]. apply newer_app_kept. Qed.

Lemma fetched_prefix init c fs : fetched init c fs `prefix_of` fs.
Proof.
  destruct init; simpl; [done|].
  induction fs as [|f fs IH]; simpl; [done|].
  destruct (c <? finding_id f); [by apply prefix_cons|apply prefix_nil].
Qed.

Lemma offset_next p : 1 <= p -> offset (p + 1) = (offset p + 100)%nat.
Proof. unfold offset, PAGE_SIZE. lia. Qed.

Lemma page_of_offset ds p : page_of ds p = take 100 (drop (offset p) ds).
Proof. done. Qed.

Lemma last_page ds p :
  1 <= p -> pages_of ds <= p -> (length ds <= offset p + 100)%nat.
Proof. unfold pages_of, offset, PAGE_SIZE. intros. Z.div_mod_to_equations. lia. Qed.

Lemma not_last_page ds p :
  1 <= p -> p < pages_of ds -> (offset p + 100 < length ds)%nat.
Proof. unfold pages_of, offset, PAGE_SIZE. intros. Z.div_mod_to_equations. lia. Qed.

(** One page of the listing through the inner loop: either the boundary is
    on that page and the session now holds exactly what the sync has to
    fetch, or the whole page was kept. *)
Lemma page_step init c ds k s :
  new_findings s = take k ds ->
  fetched init c (take k ds) = take k ds ->
  (init = false -> c <= new_max_id s) ->
  should_stop s = false ->
  let s' := scan init c (take 100 (drop k ds)) s in
  (should_stop s' = true /\ new_findings s' = fetched init c ds)
  \/ (should_stop s' = false
      /\ new_findings s' = take (k + 100) ds
      /\ fetched init c (take (k + 100) ds) = take (k + 100) ds).
Proof.
  intros Hnew Hkept Hc Hstop. cbv zeta. rewrite scan_fetched by done.
  simpl. rewrite Hstop, Hnew. simpl.
  destruct (negb init && has_boundary c (take 100 (drop k ds))) eqn:Hb.
  - left. split; [done|].
    apply andb_true_iff in Hb as [Hi Hb]. apply negb_true_iff in Hi. subst init.
    simpl in *.
    rewrite <- (take_drop k ds) at 3.
    rewrite newer_app_kept by done. f_equal.
    rewrite <- (take_drop 100 (drop k ds)) at 2.
    by rewrite newer_boundary.
  - right. split; [done|].
    assert (fetched init c (take 100 (drop k ds)) = take 100 (drop k ds)) as Hp.
    { destruct init; simpl in *; [done|]. by apply newer_no_boundary. }
    rewrite Hp, take_take_drop. split; [done|].
    rewrite <- (take_take_drop ds k 100).
    rewrite fetched_app_kept by done. by rewrite Hp.
Qed.

(** Against [serve ds] the loop ends, with enough fuel for the pages of
    [ds], on exactly the findings ahead of the boundary. *)
Lemma sync_loop_serve ds impact_filter init c fuel s w :
  should_stop s = false ->
  1 <= page s ->
  new_findings s = take (offset (page s)) ds ->
  fetched init c (take (offset (page s)) ds) = take (offset (page s)) ds ->
  (init = false -> c <= new_max_id s) ->
  (length ds - offset (page s) < 100 * fuel)%nat ->
  exists s' w',
    sync_loop (serve ds) impact_filter init c fuel s w = Return s' w'
    /\ new_findings s' = fetched init c ds.
Proof.
  revert s w. induction fuel as [|fuel IH]; intros s w Hstop Hp Hnew Hkept Hc Hfuel;
    [lia|].
  rewrite sync_loop_unfold, Hstop.
  destruct (fetch_page_serve ds (page s) impact_filter w) as (w1 & -> & _).
  change (falsy (page_data ds (page s))) with false. cbv iota.
  change (default [] (findings (page_data ds (page s)))) with (page_of ds (page s)).
  change (default 0 (metadata (page_data ds (page s)) ≫= totalPages))
    with (pages_of ds).
  rewrite page_of_offset.
  destruct (take 100 (drop (offset (page s)) ds)) as [|f fs] eqn:Hpage.
  - exists s, w1. split; [done|].
    apply take_nil_inv in Hpage as [?|Hd]; [done|].
    apply drop_nil_inv in Hd. rewrite take_ge in Hnew, Hkept by done.
    by rewrite Hnew.
  - rewrite <- Hpage. clear f fs Hpage.
    destruct (page_step init c ds (offset (page s)) s Hnew Hkept Hc Hstop)
      as [[Hs' Hn']|(Hs' & Hn' & Hk')];
      set (s' := scan init c (take 100 (drop (offset (page s)) ds)) s) in *.
    + destruct (Z.geb_spec (page s) (pages_of ds)).
      * by exists s', w1.
      * eexists _, _. split; [cbv zeta; by apply sync_loop_stopped|done].
    + assert (init = false -> c <= new_max_id s') as Hc'.
      { intros Hi. etrans; [exact (Hc Hi)|].
        apply (extends_max init c). unfold s'. by apply extends_scan. }
      destruct (Z.geb_spec (page s) (pages_of ds)) as [Hlast|Hmore].
      * exists s', w1. split; [done|].
        pose proof (last_page ds (page s) Hp Hlast).
        rewrite take_ge in Hn', Hk' by done. by rewrite Hn'.
      * pose proof (not_last_page ds (page s) Hp Hmore).
        assert (page s' = page s) as Hpage by apply scan_page.
        cbv zeta. apply IH; simpl; rewrite ?Hpage, ?offset_next by done;
          try done; lia.
Qed.

Lemma kept_prefix init c k ds :
  fetched init c (take k ds) = take k ds ->
  take k ds `prefix_of` fetched init c ds.
Proof.
  intros Hk. rewrite <- (take_drop k ds) at 2.
  rewrite fetched_app_kept by done. by apply prefix_app_r.
Qed.

(** Against a network that delivers [ds], however unreliable, the loop only
    ever holds a prefix of what the sync has to fetch. *)
Lemma sync_loop_delivers net impact_filter ds init c fuel s w :
  delivers net impact_filter ds ->
  1 <= page s ->
  (if should_stop s then new_findings s `prefix_of` fetched init c ds
   else new_findings s = take (offset (page s)) ds
        /\ fetched init c (take (offset (page s)) ds) = take (offset (page s)) ds) ->
  (init = false -> c <= new_max_id s) ->
  match sync_loop net impact_filter init c fuel s w with
  | Return s' _ => new_findings s' `prefix_of` fetched init c ds
  | _ => True
  end.
Proof.
  intros Hnet. revert s w.
  induction fuel as [|fuel IH]; intros s w Hp Hpos Hc.
  - destruct (should_stop s) eqn:Hs.
    + by rewrite sync_loop_stopped.
    + by rewrite sync_loop_no_fuel.
  - rewrite sync_loop_unfold.
    destruct (should_stop s) eqn:Hs; [done|]. destruct Hpos as [Hnew Hkept].
    assert (new_findings s `prefix_of` fetched init c ds) as Hpre.
    { rewrite Hnew. by apply kept_prefix. }
    destruct (fetch_page net (page s) impact_filter w) as [[data|] w1|e w1|] eqn:Hf;
      [|done..].
    destruct (falsy data); [done|].
    apply fetch_page_Some in Hf as [k Hk]. rewrite (Hnet _ _ _ Hk), page_of_offset.
    destruct (take 100 (drop (offset (page s)) ds)) as [|f fs] eqn:Hpage; [done|].
    rewrite <- Hpage. clear f fs Hpage.
    pose proof (scan_page init c (take 100 (drop (offset (page s)) ds)) s) as Hpg.
    pose proof (extends_scan init c (take 100 (drop (offset (page s)) ds)) s Hc)
      as Hext%extends_max.
    destruct (page_step init c ds (offset (page s)) s Hnew Hkept Hc Hs)
      as [[Hs' Hn']|(Hs' & Hn' & Hk')];
      set (s' := scan init c (take 100 (drop (offset (page s)) ds)) s) in *;
      cbv zeta.
    + destruct (page s >=? _); [by rewrite Hn'|].
      rewrite sync_loop_stopped by done. simpl. by rewrite Hn'.
    + destruct (page s >=? _).
      * rewrite Hn'. by apply kept_prefix.
      * apply IH; simpl; rewrite ?Hpg, ?Hs', ?offset_next by done; try lia.
        -- done.
        -- intros Hi. specialize (Hc Hi). lia.
Qed.


(** ** fetch_category as a whole *)

Lemma start_max c : new_max_id (start c) = c.
Proof. done. Qed.

(** Whatever the network did, a sync that returns has appended its new
    findings below the sheet it opened, and has left in the state dictionary
    the maximum of the old watermark and of their ids. *)
Lemma fetch_category_Return net fuel impact_filter xlsx_file max_id_key state w
    n state' w' :
  fetch_category net fuel impact_filter xlsx_file max_id_key state w
    = Return (n, state') w' ->
  exists c s w1 k,
    watermark state max_id_key = inr c
    /\ sync_loop net impact_filter (c =? 0) c fuel (start c) w = Return s w1
    /\ same_disk w w1
    /\ new_max_id s = max_id c (new_findings s)
    /\ (c <> 0 -> Forall (fun f => c < finding_id f) (new_findings s))
    /\ n = Z.of_nat (length (new_findings s))
    /\ state' = updated state max_id_key impact_filter (new_max_id s) k
    /\ w' = persisted (opened c xlsx_file w1) (new_findings s) xlsx_file w1.
Proof.
  rewrite fetch_category_unfold.
  destruct (watermark state max_id_key) as [e|c]; [done|].
  pose proof (sync_loop_inv net impact_filter (c =? 0) c fuel (start c) w) as Hinv.
  destruct (sync_loop _ _ _ _ _ _ _) as [s w1|e w1|] eqn:Hloop; [|done..].
  destruct Hinv as [Hd (kept & Hk & Hm & _ & Hall)]; [simpl; lia|].
  cbv zeta.
  destruct (default (JNum 0) (_ !! _)) as [|m|]; simpl; [done| |done].
  intros [= Hn Hst Hw]. simpl in Hk. subst kept.
  exists c, s, w1, (m + Z.of_nat (length (new_findings s))).
  split_and!; try done.
  intros Hc0. apply Hall. by apply Z.eqb_neq.
Qed.

Lemma watermark_updated state max_id_key impact_filter m k :
  max_id_key <> count_key impact_filter ->
  watermark (updated state max_id_key impact_filter m k) max_id_key = inr m.
Proof.
  intros Hne. unfold watermark, updated.
  rewrite lookup_insert_ne by done. rewrite lookup_insert_eq. simpl.
  apply py_int_py_str.
Qed.

Lemma counted_updated state max_id_key impact_filter m k :
  counted (updated state max_id_key impact_filter m k) impact_filter = Some k.
Proof. unfold counted, updated. by rewrite lookup_insert_eq. Qed.

Lemma updated_other state max_id_key impact_filter m k key :
  key <> max_id_key -> key <> count_key impact_filter ->
  updated state max_id_key impact_filter m k !! key = state !! key.
Proof. intros ??. unfold updated. by rewrite !lookup_insert_ne. Qed.

(** Against [serve ds], with fuel for the pages of [ds], a sync returns, and
    what it returns is determined by the watermark and the listing. *)
Lemma fetch_category_serve ds fuel impact_filter xlsx_file max_id_key state w c k :
  watermark state max_id_key = inr c ->
  max_id_key <> count_key impact_filter ->
  counted state impact_filter = Some k ->
  (length ds < 100 * fuel)%nat ->
  exists w1,
    same_disk w w1
    /\ fetch_category (serve ds) fuel impact_filter xlsx_file max_id_key state w
       = Return (Z.of_nat (length (fetched (c =? 0) c ds)),
                 updated state max_id_key impact_filter
                   (max_id c (fetched (c =? 0) c ds))
                   (k + Z.of_nat (length (fetched (c =? 0) c ds))))
                (persisted (opened c xlsx_file w1) (fetched (c =? 0) c ds)
                   xlsx_file w1).
Proof.
  intros Hw Hne Hk Hfuel.
  rewrite fetch_category_unfold, Hw.
  destruct (sync_loop_serve ds impact_filter (c =? 0) c fuel (start c) w)
    as (s & w1 & Hloop & Hnew); simpl; try done; try lia.
  { by destruct (c =? 0). }
  pose proof (sync_loop_inv (serve ds) impact_filter (c =? 0) c fuel (start c) w)
    as Hinv.
  rewrite Hloop in *.
  destruct Hinv as [Hd (kept & Hkept & Hm & _)]; [simpl; lia|].
  simpl in Hkept, Hm. subst kept. rewrite Hnew in Hm.
  exists w1. split; [done|]. cbv zeta.
  rewrite lookup_insert_ne by done.
  unfold counted in Hk.
  destruct (default (JNum 0) (state !! count_key impact_filter)) as [|k'|];
    try done.
  injection Hk as ->. simpl. by rewrite Hnew, Hm.
Qed.

(** * The claims *)

(** ** Failures of the client *)

(** C3.  The rate-limit branch of [fetch_page] is inside the
    [for attempt in range(MAX_RETRIES)] loop, so every 429 uses up one of the
    three attempts: when the three answers to a page are 429 (each with a
    reset header that is an integer literal, or with none), the client has
    asked three times for the same page, has slept three times (the last
    time for nothing), and returns [None], which [fetch_category] reports as
    a failed page.  Against an endpoint that would have served the listing
    from the fourth request on, the HIGH/MEDIUM sync therefore fetches
    nothing, while the LOW/GAS sync that follows gets both findings. *)
Theorem rate_limit_uses_up_attempts :
  (forall net p impact_filter w,
     rate_limited (net (sent w) impact_filter p) ->
     rate_limited (net (S (sent w)) impact_filter p) ->
     rate_limited (net (S (S (sent w))) impact_filter p) ->
     exists w',
       fetch_page net p impact_filter w = Return None w'
       /\ sent w' = (sent w + 3)%nat
       /\ trace w' = trace w ++
            [Post impact_filter p; SleepRateLimited;
             Post impact_filter p; SleepRateLimited;
             Post impact_filter p; SleepRateLimited])
  /\ (forall fuel,
        exists w',
          main (limited_thrice [bare 2; bare 1]) (S fuel) fresh = Return 2 w'
          /\ xlsx w' !! HIGH_MEDIUM_FILE = None
          /\ (state_json w' ≫= (.!! "high_medium_max_id")) = Some (JStr "0")
          /\ stored_ids (default [] (xlsx w' !! LOW_GAS_FILE)) = [CInt 1; CInt 2]).
Proof.
  split.
  - intros net p impact_filter w (r0 & t0 & H0 & Ht0) (r1 & t1 & H1 & Ht1)
      (r2 & t2 & H2 & Ht2). unfold fetch_page. simpl.
    rewrite H0. simpl. rewrite Ht0. simpl.
    rewrite H1. simpl. rewrite Ht1. simpl.
    rewrite H2. simpl. rewrite Ht2. simpl.
    eexists. split; [reflexivity|]. simpl.
    split; [lia|]. by rewrite <- !app_assoc.
  - intros fuel.
    destruct (returns_ex (main (limited_thrice [bare 2; bare 1]) (S fuel) fresh)
      (fun n w' =>
         n = 2
         /\ xlsx w' !! HIGH_MEDIUM_FILE = None
         /\ (state_json w' ≫= (.!! "high_medium_max_id")) = Some (JStr "0")
         /\ stored_ids (default [] (xlsx w' !! LOW_GAS_FILE)) = [CInt 1; CInt 2]))
      as (n & w' & Hrun & -> & Hrest); [by vm_compute|].
    exists w'. exact (conj Hrun Hrest).
Qed.

(** No sync writes state.json, and [main] writes it last: a run that ends
    with an exception has not saved the state. *)
Lemma fetch_category_state_json
    net fuel impact_filter xlsx_file max_id_key state w :
  match fetch_category net fuel impact_filter xlsx_file max_id_key state w with
  | Return _ w' | Raise _ w' => state_json w' = state_json w
  | OutOfFuel => True
  end.
Proof.
  rewrite fetch_category_unfold.
  destruct (watermark state max_id_key) as [e|c]; [done|].
  pose proof (sync_loop_inv net impact_filter (c =? 0) c fuel (start c) w) as Hinv.
  destruct (sync_loop _ _ _ _ _ _ _) as [s w1|e w1|]; [| |done].
  - destruct Hinv as [(Hs & _) _]; [simpl; lia|]. cbv zeta.
    assert (state_json (persisted (opened c xlsx_file w1) (new_findings s)
                          xlsx_file w1) = state_json w) as Hp.
    { unfold persisted. by destruct (new_findings s). }
    by destruct (py_add _ _).
  - by destruct Hinv as [(Hs & _) _]; [simpl; lia|].
Qed.

Lemma raise_leaves_state_unsaved net fuel w e w' :
  main net fuel w = Raise e w' -> state_json w' = state_json w.
Proof.
  unfold main. cbn [bind].
  assert (exists state, load_state w = Return state w) as [state ->].
  { unfold load_state. destruct (state_json w); eauto. }
  pose proof (fetch_category_state_json net fuel ["HIGH"; "MEDIUM"]
                HIGH_MEDIUM_FILE "high_medium_max_id" state w) as H1.
  destruct (fetch_category _ _ _ _ _ _ w) as [[n1 state1] w1|e1 w1|];
    [|intros [= <- <-]; done|done].
  cbn [bind fst snd].
  pose proof (fetch_category_state_json net fuel ["LOW"; "GAS"]
                LOW_GAS_FILE "low_gas_max_id" state1 w1) as H2.
  destruct (fetch_category _ _ _ _ _ _ w1) as [[n2 state2] w2|e2 w2|];
    [done|intros [= <- <-]; congruence|done].
Qed.

(** C1.  When the retry budget of a page is used up by transport failures,
    [fetch_page] re-raises the exception and nothing above it catches it:
    with ids 4 and 3 already accumulated from the first HIGH/MEDIUM page and
    the second page failing three times, [main] ends with the exception, no
    sheet has been written, no LOW/GAS request has been sent, and state.json
    has not been saved. *)
Theorem page_failure_aborts_run :
  forall fuel,
    exists w',
      main second_page_down (S (S fuel)) fresh = Raise RequestException w'
      /\ xlsx w' = ∅
      /\ state_json w' = None
      /\ trace w' =
           [Post ["HIGH"; "MEDIUM"] 1; SleepDelay 3;
            Post ["HIGH"; "MEDIUM"] 2; SleepBackoff 5;
            Post ["HIGH"; "MEDIUM"] 2; SleepBackoff 10;
            Post ["HIGH"; "MEDIUM"] 2].
Proof.
  intros fuel.
  destruct (raises_ex (main second_page_down (S (S fuel)) fresh)
    (fun e w' =>
       e = RequestException
       /\ xlsx w' = ∅
       /\ state_json w' = None
       /\ trace w' =
            [Post ["HIGH"; "MEDIUM"] 1; SleepDelay 3;
             Post ["HIGH"; "MEDIUM"] 2; SleepBackoff 5;
             Post ["HIGH"; "MEDIUM"] 2; SleepBackoff 10;
             Post ["HIGH"; "MEDIUM"] 2]))
    as (e & w' & Hrun & -> & Hrest); [by vm_compute|].
  exists w'. exact (conj Hrun Hrest).
Qed.

(** The sibling path: when the same page is lost to rate limiting instead,
    the client returns [None], the loop breaks, and the run goes on: ids 3
    and 4 are written, LOW/GAS is synced, and the state is saved. *)
Lemma page_lost_to_rate_limit_is_not_fatal :
  forall fuel,
    exists w',
      main second_page_limited (S (S fuel)) fresh = Return 4 w'
      /\ stored_ids (default [] (xlsx w' !! HIGH_MEDIUM_FILE)) = [CInt 3; CInt 4]
      /\ stored_ids (default [] (xlsx w' !! LOW_GAS_FILE)) = [CInt 3; CInt 4]
      /\ (state_json w' ≫= (.!! "high_medium_max_id")) = Some (JStr "4")
      /\ (state_json w' ≫= (.!! "last_run")) = Some (JStr (utcnow fresh)).
Proof.
  intros fuel.
  destruct (returns_ex (main second_page_limited (S (S fuel)) fresh)
    (fun n w' =>
       n = 4
       /\ stored_ids (default [] (xlsx w' !! HIGH_MEDIUM_FILE)) = [CInt 3; CInt 4]
       /\ stored_ids (default [] (xlsx w' !! LOW_GAS_FILE)) = [CInt 3; CInt 4]
       /\ (state_json w' ≫= (.!! "high_medium_max_id")) = Some (JStr "4")
       /\ (state_json w' ≫= (.!! "last_run")) = Some (JStr (utcnow fresh))))
    as (n & w' & Hrun & -> & Hrest); [by vm_compute|].
  exists w'. exact (conj Hrun Hrest).
Qed.

(** ** The page loop *)

(** C10.  When the body of a page announces no page count, or announces 0,
    [total_pages] is 0 and [page >= total_pages] holds for every page
    number from 1 on: the loop returns right after the inner loop has gone
    through that page, however many findings it held, without another
    request. *)
Theorem missing_total_pages_stops_loop
    net impact_filter init c fuel s w data fs w1 :
  should_stop s = false ->
  1 <= page s ->
  fetch_page net (page s) impact_filter w = Return (Some data) w1 ->
  findings data = Some fs ->
  default 0 (metadata data ≫= totalPages) = 0 ->
  sync_loop net impact_filter init c (S fuel) s w
  = Return (scan init c fs s) w1.
Proof.
  intros Hstop Hp Hfetch Hfs Hpages.
  rewrite sync_loop_unfold, Hstop, Hfetch, Hpages.
  unfold falsy. rewrite Hfs. simpl.
  destruct fs as [|f fs']; [done|].
  cbv zeta. by destruct (Z.geb_spec (page s) 0); [|lia].
Qed.

Lemma missing_total_pages_stops_loop_witness :
  length (page_of (newest_first (seqZ 1 300)) 1) = 100%nat
  /\ exists s' w',
       sync_loop pages_unannounced ["HIGH"; "MEDIUM"] true 0 5 (start 0) fresh
       = Return s' w'
       /\ length (new_findings s') = 100%nat
       /\ trace w' = [Post ["HIGH"; "MEDIUM"] 1].
Proof.
  split; [by vm_compute|].
  eexists _, _. split.
  - apply (missing_total_pages_stops_loop pages_unannounced ["HIGH"; "MEDIUM"]
             true 0 4 (start 0) fresh
             (body_without_pages (page_of (newest_first (seqZ 1 300)) 1))
             (page_of (newest_first (seqZ 1 300)) 1)).
    + reflexivity.
    + simpl. lia.
    + reflexivity.
    + reflexivity.
    + reflexivity.
  - split; by vm_compute.
Defined.

(** C4.  On an incremental sync (watermark [X], not the sentinel 0) a
    delivered finding whose id is exactly [X] is not appended and not
    counted, the findings behind it on the page are not looked at, the stop
    flag is raised, and the loop returns without another request. *)
Theorem boundary_is_strict
    net impact_filter X fuel s w data w1 pre f post :
  X <> 0 ->
  X <= new_max_id s ->
  should_stop s = false ->
  fetch_page net (page s) impact_filter w = Return (Some data) w1 ->
  findings data = Some (pre ++ f :: post) ->
  Forall (fun g => X < finding_id g) pre ->
  finding_id f = X ->
  scan (X =? 0) X (pre ++ f :: post) s = after_scan pre true s
  /\ exists s' w',
       sync_loop net impact_filter (X =? 0) X (S fuel) s w = Return s' w'
       /\ new_findings s' = new_findings s ++ pre
       /\ total_fetched s' = total_fetched s + Z.of_nat (length pre)
       /\ should_stop s' = true
       /\ sent w' = sent w1.
Proof.
  intros HX Hmax Hstop Hfetch Hfs Hpre Hf.
  apply Z.eqb_neq in HX as HX'. rewrite HX'.
  assert (newer X pre = pre) as Hkept.
  { clear -Hpre. induction Hpre as [|g pre Hg _ IH]; simpl; [done|].
    apply Z.ltb_lt in Hg. by rewrite Hg, IH. }
  assert (scan false X (pre ++ f :: post) s = after_scan pre true s) as Hscan.
  { rewrite scan_incremental by done.
    rewrite newer_app_kept by done. simpl.
    rewrite Hf, Z.ltb_irrefl, app_nil_r. f_equal.
    rewrite Hstop. simpl. unfold has_boundary.
    apply existsb_exists. exists f. rewrite Hf.
    split; [apply in_elt|by apply Z.leb_le]. }
  split; [done|].
  rewrite sync_loop_unfold, Hstop, Hfetch.
  unfold falsy. rewrite Hfs. cbn [default from_option Datatypes.id].
  destruct (pre ++ f :: post) as [|g gs] eqn:Hl.
  { by destruct pre. }
  cbv beta iota zeta. rewrite Hscan.
  destruct (page s >=? _).
  - by eexists _, _.
  - rewrite sync_loop_stopped by done. by eexists _, _.
Qed.

Lemma boundary_is_strict_witness :
  scan (5 =? 0) 5 ([bare 7; bare 6] ++ bare 5 :: [bare 4]) (start 5)
  = after_scan [bare 7; bare 6] true (start 5)
  /\ exists s' w',
       sync_loop (serve [bare 7; bare 6; bare 5; bare 4]) ["LOW"; "GAS"]
         (5 =? 0) 5 1 (start 5) fresh = Return s' w'
       /\ new_findings s' = new_findings (start 5) ++ [bare 7; bare 6]
       /\ total_fetched s' = total_fetched (start 5) + Z.of_nat 2
       /\ should_stop s' = true
       /\ sent w' = 1%nat.
Proof.
  eapply (boundary_is_strict (serve [bare 7; bare 6; bare 5; bare 4])
            ["LOW"; "GAS"] 5 0 (start 5) fresh
            (page_data [bare 7; bare 6; bare 5; bare 4] 1)
            {| sent := 1; trace := [Post ["LOW"; "GAS"] 1]; state_json := None;
               xlsx := ∅; utcnow := utcnow fresh |}
            [bare 7; bare 6] (bare 5) [bare 4]).
  - lia.
  - simpl. lia.
  - reflexivity.
  - reflexivity.
  - reflexivity.
  - repeat constructor.
  - reflexivity.
Defined.

(** C6.  On an initial sync the inner loop compares nothing against the
    watermark: it keeps every finding of every page.  Against a remote that
    serves its listing page by page the sync therefore returns the whole
    listing, whatever the ids.  With 250 findings, ids 250 down to 1, three
    pages are requested, 250 findings are returned and written, and the
    watermark becomes 250. *)
Theorem initial_sync_walks_every_page :
  (forall c fs s, scan true c fs s = after_scan fs (should_stop s) s)
  /\ (forall ds fuel impact_filter xlsx_file max_id_key state w k,
        watermark state max_id_key = inr 0 ->
        max_id_key <> count_key impact_filter ->
        counted state impact_filter = Some k ->
        (length ds < 100 * fuel)%nat ->
        exists w1,
          same_disk w w1
          /\ fetch_category (serve ds) fuel impact_filter xlsx_file max_id_key state w
             = Return (Z.of_nat (length ds),
                       updated state max_id_key impact_filter (max_id 0 ds)
                         (k + Z.of_nat (length ds)))
                      (persisted create_workbook_with_headers ds xlsx_file w1))
  /\ (exists state' w',
        (state <- load_state ;;
         fetch_category (serve (newest_first (seqZ 1 250))) 3 ["HIGH"; "MEDIUM"]
           HIGH_MEDIUM_FILE "high_medium_max_id" state) fresh
        = Return (250, state') w'
        /\ state' !! "high_medium_max_id" = Some (JStr "250")
        /\ trace w' = [Post ["HIGH"; "MEDIUM"] 1; SleepDelay 3;
                       Post ["HIGH"; "MEDIUM"] 2; SleepDelay 3;
                       Post ["HIGH"; "MEDIUM"] 3]
        /\ stored_ids (default [] (xlsx w' !! HIGH_MEDIUM_FILE))
           = CInt <$> seqZ 1 250).
Proof.
  split_and!.
  - apply scan_initial.
  - intros ds fuel impact_filter xlsx_file max_id_key state w k Hw Hne Hk Hfuel.
    destruct (fetch_category_serve ds fuel impact_filter xlsx_file max_id_key
                state w 0 k Hw Hne Hk Hfuel) as (w1 & Hd & Heq).
    exists w1. split; [done|]. by rewrite Heq.
  - destruct (returns_ex
      ((state <- load_state ;;
        fetch_category (serve (newest_first (seqZ 1 250))) 3 ["HIGH"; "MEDIUM"]
          HIGH_MEDIUM_FILE "high_medium_max_id" state) fresh)
      (fun r w' =>
         r.1 = 250
         /\ r.2 !! "high_medium_max_id" = Some (JStr "250")
         /\ trace w' = [Post ["HIGH"; "MEDIUM"] 1; SleepDelay 3;
                        Post ["HIGH"; "MEDIUM"] 2; SleepDelay 3;
                        Post ["HIGH"; "MEDIUM"] 3]
         /\ stored_ids (default [] (xlsx w' !! HIGH_MEDIUM_FILE))
            = CInt <$> seqZ 1 250))
      as ([n state'] & w' & Hrun & Hn & Hrest); [by vm_compute|].
    simpl in Hn, Hrest. subst n. exists state', w'. exact (conj Hrun Hrest).
Qed.

(** ** The sheets *)

(** C9, as stated, fails: on a sync that starts from the sentinel watermark
    the sheet is created afresh whether or not the file exists, and saving
    it replaces the file.  Here the file holds id 7, the state is the
    default one, the remote holds id 9: afterwards the file holds id 9 only. *)
Lemma existing_store_replaced_on_initial_sync :
  xlsx with_old_sheet !! HIGH_MEDIUM_FILE
    = Some [HEADERS; finding_to_row (bare 7)]
  /\ exists state' w',
       (state <- load_state ;;
        fetch_category (serve [bare 9]) 1 ["HIGH"; "MEDIUM"]
          HIGH_MEDIUM_FILE "high_medium_max_id" state) with_old_sheet
       = Return (1, state') w'
       /\ xlsx w' !! HIGH_MEDIUM_FILE = Some [HEADERS; finding_to_row (bare 9)]
       /\ ~ exists rows,
            xlsx w' !! HIGH_MEDIUM_FILE
            = Some ([HEADERS; finding_to_row (bare 7)] ++ rows).
Proof.
  split; [by vm_compute|].
  destruct (returns_ex
    ((state <- load_state ;;
      fetch_category (serve [bare 9]) 1 ["HIGH"; "MEDIUM"]
        HIGH_MEDIUM_FILE "high_medium_max_id" state) with_old_sheet)
    (fun r w' =>
       r.1 = 1
       /\ xlsx w' !! HIGH_MEDIUM_FILE = Some [HEADERS; finding_to_row (bare 9)]))
    as ([n state'] & w' & Hrun & Hn & Hfile); [by vm_compute|].
  simpl in Hn. subst n. exists state', w'.
  split; [exact Hrun|]. split; [exact Hfile|].
  intros [rows Hrows]. rewrite Hfile in Hrows. vm_compute in Hrows.
  by destruct rows.
Qed.

(** C9, amended.  The choice depends first on the watermark: at the sentinel
    0 the sync starts from a new sheet holding the header row only; otherwise
    it starts from the rows of the file when the file exists and from a new
    sheet with the header row when it does not.  The new findings go below
    these rows, and the file is written only when there are new findings. *)
Theorem store_opened_or_created
    net fuel impact_filter xlsx_file max_id_key state w n state' w' :
  fetch_category net fuel impact_filter xlsx_file max_id_key state w
    = Return (n, state') w' ->
  exists c new,
    watermark state max_id_key = inr c
    /\ n = Z.of_nat (length new)
    /\ xlsx w' =
       let wb := if c =? 0 then [HEADERS]
                 else match xlsx w !! xlsx_file with
                      | Some rows => rows
                      | None => [HEADERS]
                      end in
       match new with
       | [] => xlsx w
       | _ => <[xlsx_file := wb ++ (finding_to_row <$> reverse new)]> (xlsx w)
       end.
Proof.
  intros (c & s & w1 & k & Hc & _ & (_ & Hx & _) & _ & _ & Hn & _ & Hw)
    %fetch_category_Return.
  exists c, (new_findings s). split_and!; [done..|].
  subst w'. unfold persisted, opened. rewrite Hx. cbv zeta.
  destruct (new_findings s); simpl; [done|].
  destruct (c =? 0); [done|]. by destruct (xlsx w !! xlsx_file).
Qed.

Lemma store_opened_or_created_witness :
  returns
    (fetch_category (serve [bare 9]) 1 ["HIGH"; "MEDIUM"] HIGH_MEDIUM_FILE
       "high_medium_max_id" (<["high_medium_max_id" := JStr "7"]> ∅) with_old_sheet)
    (fun r w' =>
       xlsx w' !! HIGH_MEDIUM_FILE
       = Some [HEADERS; finding_to_row (bare 7); finding_to_row (bare 9)]
       /\ exists c new,
            watermark (<["high_medium_max_id" := JStr "7"]> ∅) "high_medium_max_id"
            = inr c
            /\ r.1 = Z.of_nat (length new)
            /\ xlsx w' =
               let wb := if c =? 0 then [HEADERS]
                         else match xlsx with_old_sheet !! HIGH_MEDIUM_FILE with
                              | Some rows => rows
                              | None => [HEADERS]
                              end in
               match new with
               | [] => xlsx with_old_sheet
               | _ => <[HIGH_MEDIUM_FILE := wb ++ (finding_to_row <$> reverse new)]>
                        (xlsx with_old_sheet)
               end).
Proof.
  pose proof (store_opened_or_created (serve [bare 9]) 1 ["HIGH"; "MEDIUM"]
                HIGH_MEDIUM_FILE "high_medium_max_id"
                (<["high_medium_max_id" := JStr "7"]> ∅) with_old_sheet) as Hthm.
  assert (returns
    (fetch_category (serve [bare 9]) 1 ["HIGH"; "MEDIUM"] HIGH_MEDIUM_FILE
       "high_medium_max_id" (<["high_medium_max_id" := JStr "7"]> ∅) with_old_sheet)
    (fun _ w' =>
       xlsx w' !! HIGH_MEDIUM_FILE
       = Some [HEADERS; finding_to_row (bare 7); finding_to_row (bare 9)]))
    as Hrun by by vm_compute.
  destruct (fetch_category _ _ _ _ _ _ _) as [[n state'] w'|e w'|]; [|done..].
  split; [exact Hrun|]. exact (Hthm n state' w' eq_refl).
Defined.

(** ** The watermark *)

(** C5.  A sync that returns leaves under its key the maximum of the
    watermark it started from and of the ids of the findings it has just
    written: never less than before, unchanged when it found nothing new.
    The other keys of the state, the watermark of the other category among
    them, are left as they were. *)
Theorem watermark_monotone
    net fuel impact_filter xlsx_file max_id_key state w n state' w' :
  max_id_key <> count_key impact_filter ->
  fetch_category net fuel impact_filter xlsx_file max_id_key state w
    = Return (n, state') w' ->
  exists before after new,
    watermark state max_id_key = inr before
    /\ watermark state' max_id_key = inr after
    /\ before <= after
    /\ n = Z.of_nat (length new)
    /\ xlsx w' = xlsx (persisted (opened before xlsx_file w) new xlsx_file w)
    /\ after = max_id before new
    /\ (new = [] -> after = before)
    /\ (forall key, key <> max_id_key -> key <> count_key impact_filter ->
          state' !! key = state !! key).
Proof.
  intros Hne (c & s & w1 & k & Hc & _ & (_ & Hx & _) & Hm & _ & Hn & -> & ->)
    %fetch_category_Return.
  exists c, (new_max_id s), (new_findings s). split_and!; try done.
  - by apply watermark_updated.
  - rewrite Hm. apply max_id_le.
  - unfold persisted, opened. rewrite Hx. by destruct (new_findings s).
  - intros Hnil. by rewrite Hm, Hnil.
  - intros key ??. by apply updated_other.
Qed.

Lemma watermark_monotone_witness :
  returns
    (fetch_category (serve [bare 9; bare 8; bare 7]) 1 ["HIGH"; "MEDIUM"]
       HIGH_MEDIUM_FILE "high_medium_max_id"
       (<["high_medium_max_id" := JStr "7"]> ∅) with_old_sheet)
    (fun r w' =>
       watermark r.2 "high_medium_max_id" = inr 9
       /\ exists before after new,
            watermark (<["high_medium_max_id" := JStr "7"]> ∅) "high_medium_max_id"
            = inr before
            /\ watermark r.2 "high_medium_max_id" = inr after
            /\ before <= after
            /\ r.1 = Z.of_nat (length new)
            /\ xlsx w' = xlsx (persisted (opened before HIGH_MEDIUM_FILE with_old_sheet)
                                 new HIGH_MEDIUM_FILE with_old_sheet)
            /\ after = max_id before new
            /\ (new = [] -> after = before)
            /\ (forall key, key <> "high_medium_max_id" ->
                  key <> count_key ["HIGH"; "MEDIUM"] ->
                  r.2 !! key
                  = (<["high_medium_max_id" := JStr "7"]> ∅ : gmap string jval) !! key)).
Proof.
  pose proof (watermark_monotone (serve [bare 9; bare 8; bare 7]) 1
                ["HIGH"; "MEDIUM"] HIGH_MEDIUM_FILE "high_medium_max_id"
                (<["high_medium_max_id" := JStr "7"]> ∅) with_old_sheet) as Hthm.
  assert (returns
    (fetch_category (serve [bare 9; bare 8; bare 7]) 1 ["HIGH"; "MEDIUM"]
       HIGH_MEDIUM_FILE "high_medium_max_id"
       (<["high_medium_max_id" := JStr "7"]> ∅) with_old_sheet)
    (fun r _ => watermark r.2 "high_medium_max_id" = inr 9))
    as Hrun by by vm_compute.
  destruct (fetch_category _ _ _ _ _ _ _) as [[n state'] w'|e w'|]; [|done..].
  split; [exact Hrun|].
  apply (Hthm n state' w'); [by vm_compute|reflexivity].
Defined.

(** ** Two syncs in a row *)

(** With positive ids, a sync leaves a watermark at or above the first
    finding of the listing, and not the sentinel unless the listing is
    empty: served the same listing again, it keeps nothing. *)
Lemma nothing_left_to_fetch c ds :
  Forall (fun f => 0 < finding_id f) ds ->
  let m := max_id c (fetched (c =? 0) c ds) in
  fetched (m =? 0) m ds = [].
Proof.
  intros Hpos. cbv zeta. destruct ds as [|f ds]; [by destruct (_ =? 0)|].
  apply Forall_cons in Hpos as [Hf _].
  assert (max_id c (fetched (c =? 0) c (f :: ds)) <> 0
          /\ finding_id f <= max_id c (fetched (c =? 0) c (f :: ds))) as [Hm Hle].
  { destruct (Z.eqb_spec c 0) as [->|Hc]; simpl.
    - pose proof (max_id_le (Z.max 0 (finding_id f)) ds). lia.
    - destruct (Z.ltb_spec c (finding_id f)); simpl; [|lia].
      pose proof (max_id_le (Z.max c (finding_id f)) (newer c ds)). lia. }
  apply Z.eqb_neq in Hm. rewrite Hm. simpl.
  by destruct (Z.ltb_spec (max_id c (fetched (c =? 0) c (f :: ds))) (finding_id f));
    [lia|].
Qed.

(** C8.  Two syncs in a row against the same listing (positive ids, as the
    remote assigns them): the second one returns 0 new findings, leaves the
    watermark and the count where the first one put them, and writes
    nothing. *)
Theorem sync_is_idempotent
    ds fuel impact_filter xlsx_file max_id_key state w c k :
  watermark state max_id_key = inr c ->
  max_id_key <> count_key impact_filter ->
  counted state impact_filter = Some k ->
  Forall (fun f => 0 < finding_id f) ds ->
  (length ds < 100 * fuel)%nat ->
  exists n state1 w1 state2 w2,
    fetch_category (serve ds) fuel impact_filter xlsx_file max_id_key state w
      = Return (n, state1) w1
    /\ fetch_category (serve ds) fuel impact_filter xlsx_file max_id_key state1 w1
      = Return (0, state2) w2
    /\ watermark state2 max_id_key = watermark state1 max_id_key
    /\ counted state2 impact_filter = counted state1 impact_filter
    /\ xlsx w2 = xlsx w1.
Proof.
  intros Hw Hne Hk Hpos Hfuel.
  destruct (fetch_category_serve ds fuel impact_filter xlsx_file max_id_key
              state w c k Hw Hne Hk Hfuel) as (w1 & Hd1 & Hrun1).
  set (new := fetched (c =? 0) c ds) in *.
  set (state1 := updated state max_id_key impact_filter (max_id c new)
                   (k + Z.of_nat (length new))) in *.
  set (w1' := persisted (opened c xlsx_file w1) new xlsx_file w1) in *.
  assert (watermark state1 max_id_key = inr (max_id c new)) as Hw1
    by by apply watermark_updated.
  assert (counted state1 impact_filter = Some (k + Z.of_nat (length new))) as Hk1
    by apply counted_updated.
  destruct (fetch_category_serve ds fuel impact_filter xlsx_file max_id_key
              state1 w1' _ _ Hw1 Hne Hk1 Hfuel) as (w2 & Hd2 & Hrun2).
  pose proof (nothing_left_to_fetch c ds Hpos) as Hnone.
  cbv zeta in Hnone. fold new in Hnone. rewrite Hnone in Hrun2. simpl in Hrun2.
  eexists _, _, _, _, _. split; [exact Hrun1|]. split; [exact Hrun2|].
  split_and!.
  - rewrite watermark_updated by done. by rewrite Hw1.
  - rewrite counted_updated, Hk1. f_equal. lia.
  - by destruct Hd2 as (_ & ? & _).
Qed.

Lemma sync_is_idempotent_witness :
  exists n state1 w1 state2 w2,
    fetch_category (serve (newest_first (seqZ 1 5))) 1 ["LOW"; "GAS"]
      LOW_GAS_FILE "low_gas_max_id" ∅ fresh = Return (n, state1) w1
    /\ fetch_category (serve (newest_first (seqZ 1 5))) 1 ["LOW"; "GAS"]
      LOW_GAS_FILE "low_gas_max_id" state1 w1 = Return (0, state2) w2
    /\ watermark state2 "low_gas_max_id" = watermark state1 "low_gas_max_id"
    /\ counted state2 ["LOW"; "GAS"] = counted state1 ["LOW"; "GAS"]
    /\ xlsx w2 = xlsx w1.
Proof.
  apply (sync_is_idempotent (newest_first (seqZ 1 5)) 1 ["LOW"; "GAS"]
           LOW_GAS_FILE "low_gas_max_id" ∅ fresh 0 0).
  - reflexivity.
  - by vm_compute.
  - reflexivity.
  - vm_compute. repeat constructor.
  - simpl. lia.
Defined.

(** ** Rows and their ids *)

Lemma row_id f : is_Some (id f) -> first_cell (finding_to_row f) = CInt (finding_id f).
Proof. intros [n Hn]. unfold first_cell, finding_id. simpl. by rewrite Hn. Qed.

Lemma rows_ids fs :
  Forall (fun f => is_Some (id f)) fs ->
  first_cell <$> (finding_to_row <$> fs) = CInt <$> (finding_id <$> fs).
Proof.
  induction 1 as [|f fs Hf _ IH]; [done|].
  rewrite !fmap_cons, IH. f_equal. by apply row_id.
Qed.

Lemma stored_ids_app wb rows :
  wb <> [] -> stored_ids (wb ++ rows) = stored_ids wb ++ (first_cell <$> rows).
Proof.
  intros Hwb. destruct wb as [|r wb]; [done|].
  unfold stored_ids. simpl. by rewrite fmap_app.
Qed.

Lemma sorted_reverse {A} (R : relation A) l :
  StronglySorted R l -> StronglySorted (flip R) (reverse l).
Proof.
  induction 1 as [|x l _ IH Hx]; [constructor|].
  rewrite reverse_cons. apply StronglySorted_app_2; [|done|by repeat constructor].
  intros a b Ha ->%list_elem_of_singleton.
  rewrite elem_of_reverse in Ha. unfold flip.
  rewrite Forall_forall in Hx. by apply Hx.
Qed.

Lemma seqZ_sorted m n : StronglySorted Z.lt (seqZ m n).
Proof.
  remember (Z.to_nat n) as k eqn:Hk. revert m n Hk.
  induction k as [|k IH]; intros m n Hk.
  - rewrite seqZ_nil by lia. constructor.
  - rewrite seqZ_cons by lia. constructor.
    + apply IH. lia.
    + apply Forall_forall. intros i Hi%elem_of_seqZ. lia.
Qed.

Lemma descending_app_l ds1 ds2 : descending (ds1 ++ ds2) -> descending ds1.
Proof.
  unfold descending. rewrite fmap_app. apply StronglySorted_app_1_l.
Qed.

Lemma descending_prefix ds1 ds2 :
  ds1 `prefix_of` ds2 -> descending ds2 -> descending ds1.
Proof. intros [k ->]. apply descending_app_l. Qed.

Lemma descending_ascending ds :
  descending ds -> StronglySorted Z.lt (finding_id <$> reverse ds).
Proof.
  intros Hd. rewrite fmap_reverse. by apply (sorted_reverse (flip Z.lt)).
Qed.

Lemma filter_none {A} (P : A -> Prop) `{forall x, Decision (P x)} l :
  Forall (fun x => ~ P x) l -> filter P l = [].
Proof.
  induction 1 as [|x l Hx _ IH]; [done|]. by rewrite filter_cons_False.
Qed.

Lemma filter_all {A} (P : A -> Prop) `{forall x, Decision (P x)} l :
  Forall P l -> filter P l = l.
Proof.
  induction 1 as [|x l Hx _ IH]; [done|]. rewrite filter_cons_True by done.
  by rewrite IH.
Qed.

(** On a listing served newest first, what lies before the boundary is
    everything above the watermark. *)
Lemma newer_filter c ds :
  descending ds -> newer c ds = filter (fun f => c < finding_id f) ds.
Proof.
  unfold descending. induction ds as [|f ds IH]; [done|].
  rewrite fmap_cons. intros [Hf Hds]%StronglySorted_cons. simpl.
  rewrite filter_cons.
  destruct (Z.ltb_spec c (finding_id f)) as [Hlt|Hge].
  - rewrite decide_True by done. by rewrite IH.
  - rewrite decide_False by lia.
    symmetry. apply filter_none.
    rewrite Forall_fmap in Hf. eapply Forall_impl; [exact Hf|].
    intros g Hg. unfold flip in Hg. simpl in Hg. lia.
Qed.

(** ** Order of the sheet *)

Lemma in_order_headers c : in_order create_workbook_with_headers c.
Proof. split; [done|]. exists []. split_and!; by constructor. Qed.

(** Rows of new findings, oldest first, below a sheet in order: still in
    order, under the new watermark. *)
Lemma in_order_append wb c new :
  in_order wb c ->
  descending new ->
  Forall (fun f => is_Some (id f)) new ->
  stored_ids wb = [] \/ Forall (fun f => c < finding_id f) new ->
  in_order (wb ++ (finding_to_row <$> reverse new)) (max_id c new).
Proof.
  intros (Hwb & ids & Hids & Hsorted & Hle) Hdesc Hid Hcross.
  split; [by destruct wb|].
  exists (ids ++ (finding_id <$> reverse new)).
  split_and!.
  - rewrite stored_ids_app by done.
    rewrite rows_ids by by apply Forall_reverse.
    by rewrite Hids, fmap_app.
  - apply StronglySorted_app_2; [|done|by apply descending_ascending].
    intros x1 x2 Hx1 Hx2. destruct Hcross as [Hnil|Hnew].
    + rewrite Hnil in Hids. symmetry in Hids. apply fmap_nil_inv in Hids.
      subst ids. by apply elem_of_nil in Hx1.
    + rewrite Forall_forall in Hle. specialize (Hle x1 Hx1).
      apply list_elem_of_fmap in Hx2 as (f & -> & Hf).
      rewrite elem_of_reverse in Hf. rewrite Forall_forall in Hnew. specialize (Hnew f Hf). simpl in *. lia.
  - apply Forall_app. split.
    + eapply Forall_impl; [exact Hle|]. intros i Hi. simpl in *.
      pose proof (max_id_le c new). lia.
    + apply Forall_fmap, Forall_reverse, Forall_forall. intros f Hf. simpl.
      by apply max_id_ge.
Qed.




(** ** No gaps, no duplicates *)

(** The general form: against a listing served newest first, with positive
    ids, a sync leaves the sheet it found followed by the rows of exactly
    the findings above the watermark it started from, oldest first.  (At
    the sentinel watermark nothing has been stored yet.) *)
Lemma sync_appends_newer ds fuel impact_filter xlsx_file max_id_key state w c k :
  watermark state max_id_key = inr c ->
  max_id_key <> count_key impact_filter ->
  counted state impact_filter = Some k ->
  descending ds ->
  Forall (fun f => 0 < finding_id f) ds ->
  (c = 0 -> xlsx w !! xlsx_file = None) ->
  (length ds < 100 * fuel)%nat ->
  let new := filter (fun f => c < finding_id f) ds in
  exists state' w',
    fetch_category (serve ds) fuel impact_filter xlsx_file max_id_key state w
      = Return (Z.of_nat (length new), state') w'
    /\ sheet w' xlsx_file = sheet w xlsx_file ++ (finding_to_row <$> reverse new)
    /\ (new = [] -> xlsx w' = xlsx w)
    /\ watermark state' max_id_key = inr (max_id c new)
    /\ counted state' impact_filter = Some (k + Z.of_nat (length new)).
Proof.
  intros Hw Hne Hk Hdesc Hpos Hnone Hfuel new.
  destruct (fetch_category_serve ds fuel impact_filter xlsx_file max_id_key
              state w c k Hw Hne Hk Hfuel) as (w1 & (_ & Hx & _) & Hrun).
  assert (fetched (c =? 0) c ds = new) as Hnew.
  { unfold new. destruct (Z.eqb_spec c 0) as [->|Hc]; simpl.
    - symmetry. by apply filter_all.
    - by apply newer_filter. }
  rewrite Hnew in Hrun.
  assert (opened c xlsx_file w1 = sheet w xlsx_file) as Hopen.
  { unfold opened, sheet. rewrite Hx.
    destruct (Z.eqb_spec c 0) as [Hc|Hc]; [|done]. by rewrite Hnone. }
  rewrite Hopen in Hrun.
  eexists _, _. split; [exact Hrun|]. split_and!.
  - unfold persisted, sheet at 1. destruct new as [|f fs].
    + rewrite Hx. by rewrite app_nil_r.
    + cbn [xlsx]. by rewrite lookup_insert_eq.
  - intros ->. by simpl.
  - by apply watermark_updated.
  - apply counted_updated.
Qed.

Lemma ids_of fs l :
  id <$> fs = Some <$> l ->
  finding_id <$> fs = l /\ Forall (fun f => is_Some (id f)) fs.
Proof.
  revert l. induction fs as [|f fs IH]; intros [|i l]; simpl; try done.
  intros [= Hf Hfs]. destruct (IH l Hfs) as [<- Hall]. split.
  - unfold finding_id at 1. by rewrite Hf.
  - constructor; [by rewrite Hf|done].
Qed.

Lemma max_id_ub c fs m :
  c <= m -> Forall (fun f => finding_id f <= m) fs -> max_id c fs <= m.
Proof.
  intros Hc Hfs. revert c Hc.
  induction Hfs as [|f fs Hf _ IH]; intros c Hc; simpl; [done|].
  apply IH. lia.
Qed.

(** The listing with ids [lo + n - 1] down to [lo]: what it looks like to
    the sync. *)
Lemma countdown_facts fs lo n :
  0 <= n ->
  id <$> fs = Some <$> reverse (seqZ lo n) ->
  length fs = Z.to_nat n
  /\ descending fs
  /\ Forall (fun f => is_Some (id f)) fs
  /\ Forall (fun f => lo <= finding_id f < lo + n) fs
  /\ max_id (lo - 1) fs = lo + n - 1.
Proof.
  intros Hn [Hids Hsome]%ids_of.
  assert (Forall (fun f => lo <= finding_id f < lo + n) fs) as Hrange.
  { apply Forall_forall. intros f Hf.
    assert (finding_id f ∈ finding_id <$> fs) as Hi
      by (apply list_elem_of_fmap; eauto).
    rewrite Hids, elem_of_reverse in Hi. by apply elem_of_seqZ in Hi. }
  split_and!; try done.
  - rewrite <- (length_fmap finding_id), Hids, length_reverse, length_seqZ. done.
  - unfold descending. rewrite Hids. apply (sorted_reverse Z.lt), seqZ_sorted.
  - assert (Forall (fun f => finding_id f <= lo + n - 1) fs) as Hub.
    { eapply Forall_impl; [exact Hrange|]. intros f Hf. simpl in *. lia. }
    pose proof (max_id_ub (lo - 1) fs (lo + n - 1) ltac:(lia) Hub) as Hle.
    pose proof (max_id_le (lo - 1) fs) as Hge.
    destruct (decide (n = 0)) as [->|Hn0]; [lia|].
    assert (lo + n - 1 ∈ finding_id <$> fs) as Hin.
    { rewrite Hids, elem_of_reverse. apply elem_of_seqZ. lia. }
    apply list_elem_of_fmap in Hin as (f & Hf & Hfin).
    pose proof (max_id_ge (lo - 1) fs f Hfin). lia.
Qed.

(** C2.  The remote first holds ids [N] down to 1 ([old]); an initial sync
    runs on an empty disk; [M] findings with the next ids ([new]) are then
    put in front of the listing and a second sync runs.  Both syncs return,
    with [N] and [M] new findings.  The sheet then holds, below the header
    row, the rows of all [N + M] findings, oldest first: its id column reads
    1, 2, ..., [N + M].  It is the sheet the first sync left followed by the
    rows of [new], the findings above the watermark [N] the second sync
    started from; the watermark ends at [N + M]. *)
Theorem no_gaps_no_duplicates
    (N M : nat) old new fuel impact_filter xlsx_file max_id_key state w k :
  id <$> old = Some <$> reverse (seqZ 1 (Z.of_nat N)) ->
  id <$> new = Some <$> reverse (seqZ (Z.of_nat N + 1) (Z.of_nat M)) ->
  watermark state max_id_key = inr 0 ->
  max_id_key <> count_key impact_filter ->
  counted state impact_filter = Some k ->
  xlsx w !! xlsx_file = None ->
  (length (new ++ old) < 100 * fuel)%nat ->
  exists state1 w1 state2 w2,
    fetch_category (serve old) fuel impact_filter xlsx_file max_id_key state w
      = Return (Z.of_nat N, state1) w1
    /\ fetch_category (serve (new ++ old)) fuel impact_filter xlsx_file
         max_id_key state1 w1
      = Return (Z.of_nat M, state2) w2
    /\ sheet w2 xlsx_file = HEADERS :: (finding_to_row <$> reverse (new ++ old))
    /\ stored_ids (sheet w2 xlsx_file) = CInt <$> seqZ 1 (Z.of_nat (N + M))
    /\ sheet w2 xlsx_file = sheet w1 xlsx_file ++ (finding_to_row <$> reverse new)
    /\ watermark state1 max_id_key = inr (Z.of_nat N)
    /\ watermark state2 max_id_key = inr (Z.of_nat (N + M)).
Proof.
  intros Hold Hnew Hw Hne Hk Hnone Hfuel.
  pose proof (countdown_facts old 1 (Z.of_nat N) ltac:(lia) Hold)
    as (Hlen_old & Hd_old & Hid_old & Hr_old & Hmax_old).
  pose proof (countdown_facts new (Z.of_nat N + 1) (Z.of_nat M) ltac:(lia) Hnew)
    as (Hlen_new & Hd_new & Hid_new & Hr_new & Hmax_new).
  assert (finding_id <$> (new ++ old) = reverse (seqZ 1 (Z.of_nat (N + M))))
    as Hids.
  { apply ids_of in Hold as [Ho _]. apply ids_of in Hnew as [Hn _].
    rewrite fmap_app, Hn, Ho, <- reverse_app.
    rewrite Nat2Z.inj_add, seqZ_app by lia. do 3 f_equal. lia. }
  assert (descending (new ++ old)) as Hd.
  { unfold descending. rewrite Hids. apply (sorted_reverse Z.lt), seqZ_sorted. }
  assert (Forall (fun f => 0 < finding_id f) (new ++ old)) as Hpos.
  { apply Forall_app. split; (eapply Forall_impl; [eassumption|]);
      intros f Hf; simpl in *; lia. }
  apply Forall_app in Hpos as Hpos'. destruct Hpos' as [_ Hpos_old].
  rewrite length_app in Hfuel.
  (* the initial sync *)
  destruct (sync_appends_newer old fuel impact_filter xlsx_file max_id_key
              state w 0 k Hw Hne Hk Hd_old Hpos_old (fun _ => Hnone)
              ltac:(lia))
    as (state1 & w1 & Hrun1 & Hsheet1 & Hsame1 & Hw1 & Hk1).
  rewrite (filter_all _ old) in Hrun1, Hsheet1, Hsame1, Hw1, Hk1 by done.
  rewrite Hlen_old, Z2Nat.id in Hrun1 by lia.
  change (max_id 0 old) with (max_id (1 - 1) old) in Hw1.
  rewrite Hmax_old in Hw1. replace (1 + Z.of_nat N - 1) with (Z.of_nat N) in Hw1 by lia.
  (* the incremental sync *)
  assert (filter (fun f => Z.of_nat N < finding_id f) (new ++ old) = new) as Hfilter.
  { rewrite filter_app, filter_all, (filter_none _ old), app_nil_r; [done| |].
    - eapply Forall_impl; [exact Hr_old|]. intros f Hf. simpl in *. lia.
    - eapply Forall_impl; [exact Hr_new|]. intros f Hf. simpl in *. lia. }
  destruct (sync_appends_newer (new ++ old) fuel impact_filter xlsx_file
              max_id_key state1 w1 (Z.of_nat N) _ Hw1 Hne Hk1 Hd Hpos)
    as (state2 & w2 & Hrun2 & Hsheet2 & _ & Hw2 & _).
  { intros HN. rewrite Hsame1; [done|].
    destruct old; [done|]. simpl in Hlen_old. lia. }
  { rewrite length_app. lia. }
  rewrite Hfilter in Hrun2, Hsheet2, Hw2.
  rewrite Hlen_new, Z2Nat.id in Hrun2 by lia.
  replace (Z.of_nat N) with (Z.of_nat N + 1 - 1) in Hw2 at 1 by lia.
  rewrite Hmax_new in Hw2.
  replace (Z.of_nat N + 1 + Z.of_nat M - 1) with (Z.of_nat (N + M)) in Hw2 by lia.
  assert (sheet w2 xlsx_file = HEADERS :: (finding_to_row <$> reverse (new ++ old)))
    as Hall.
  { rewrite Hsheet2, Hsheet1. unfold sheet at 1. rewrite Hnone. simpl.
    by rewrite reverse_app, fmap_app. }
  exists state1, w1, state2, w2. split_and!; try done.
  rewrite Hall. unfold stored_ids. simpl.
  rewrite rows_ids by (apply Forall_reverse, Forall_app; done).
  by rewrite fmap_reverse, Hids, reverse_involutive.
Qed.

Lemma no_gaps_no_duplicates_witness :
  exists state1 w1 state2 w2,
    fetch_category (serve (newest_first (seqZ 1 150))) 3 ["HIGH"; "MEDIUM"]
      HIGH_MEDIUM_FILE "high_medium_max_id" ∅ fresh
      = Return (Z.of_nat 150, state1) w1
    /\ fetch_category
         (serve (newest_first (seqZ 151 60) ++ newest_first (seqZ 1 150))) 3
         ["HIGH"; "MEDIUM"] HIGH_MEDIUM_FILE "high_medium_max_id" state1 w1
      = Return (Z.of_nat 60, state2) w2
    /\ sheet w2 HIGH_MEDIUM_FILE
       = HEADERS :: (finding_to_row <$>
           reverse (newest_first (seqZ 151 60) ++ newest_first (seqZ 1 150)))
    /\ stored_ids (sheet w2 HIGH_MEDIUM_FILE) = CInt <$> seqZ 1 (Z.of_nat (150 + 60))
    /\ sheet w2 HIGH_MEDIUM_FILE
       = sheet w1 HIGH_MEDIUM_FILE
         ++ (finding_to_row <$> reverse (newest_first (seqZ 151 60)))
    /\ watermark state1 "high_medium_max_id" = inr (Z.of_nat 150)
    /\ watermark state2 "high_medium_max_id" = inr (Z.of_nat (150 + 60)).
Proof.
  apply (no_gaps_no_duplicates 150 60 (newest_first (seqZ 1 150))
           (newest_first (seqZ 151 60)) 3 ["HIGH"; "MEDIUM"] HIGH_MEDIUM_FILE
           "high_medium_max_id" ∅ fresh 0).
  - vm_compute. reflexivity.
  - vm_compute. reflexivity.
  - reflexivity.
  - by vm_compute.
  - reflexivity.
  - reflexivity.
  - vm_compute. lia.
Defined.

(** * Further properties *)

(** ** The page client *)

Lemma requests_app evs1 evs2 :
  requests (evs1 ++ evs2) = (requests evs1 + requests evs2)%nat.
Proof.
  induction evs1 as [|e evs1 IH]; [done|]. destruct e; simpl; by rewrite IH.
Qed.

Lemma fetch_page_loop_trace net p impact_filter attempts w :
  match fetch_page_loop net p impact_filter attempts w with
  | Return _ w' | Raise _ w' =>
      exists evs,
        trace w' = trace w ++ evs
        /\ Forall (of_page impact_filter p) evs
        /\ sent w' = (sent w + requests evs)%nat
        /\ (requests evs <= length attempts)%nat
        /\ (attempts <> [] -> 1 <= requests evs)%nat
  | OutOfFuel => False
  end.
Proof.
  revert w. induction attempts as [|attempt rest IH]; intros w; simpl.
  - exists []. rewrite app_nil_r. simpl. split_and!; try done; lia.
  - destruct (net (sent w) impact_filter p) as [reset|data|]; simpl.
    + destruct (reset_time reset) as [e|t]; simpl.
      { exists [Post impact_filter p]. simpl.
        split_and!; [done|by repeat constructor|lia|lia|lia]. }
      match goal with |- context [fetch_page_loop _ _ _ rest ?w1] =>
        specialize (IH w1); destruct (fetch_page_loop net p impact_filter rest w1)
      end; try done;
        destruct IH as (evs & Ht & Hall & Hs & Hle & _);
        exists (Post impact_filter p :: SleepRateLimited :: evs);
        simpl in *; rewrite Ht, <- !app_assoc; simpl;
        (split_and!; [done|by repeat constructor|lia|lia|lia]).
    + destruct (default 20 (rateLimit data ≫= remaining) <? 2); simpl.
      * exists [Post impact_filter p; SleepLowQuota]. rewrite <- app_assoc. simpl.
        split_and!; [done|by repeat constructor|lia|lia|lia].
      * exists [Post impact_filter p]. simpl.
        split_and!; [done|by repeat constructor|lia|lia|lia].
    + destruct (attempt <? 2)%nat; simpl.
      * match goal with |- context [fetch_page_loop _ _ _ rest ?w1] =>
          specialize (IH w1); destruct (fetch_page_loop net p impact_filter rest w1)
        end; try done;
          destruct IH as (evs & Ht & Hall & Hs & Hle & _);
          eexists (Post impact_filter p :: SleepBackoff _ :: evs);
          simpl in *; rewrite Ht, <- !app_assoc; simpl;
          (split_and!; [done|by repeat constructor|lia|lia|lia]).
      * exists [Post impact_filter p]. simpl.
        split_and!; [done|by repeat constructor|lia|lia|lia].
Qed.

(** X1.  Whatever the endpoint answers, one call of [fetch_page] sends at
    least one and at most [MAX_RETRIES] requests, all of them for the page
    and the impact filter it was called with; it adds nothing else to the
    trace than these requests and its own sleeps, and it leaves the files
    alone. *)
Theorem fetch_page_asks_for_its_page net p impact_filter w :
  match fetch_page net p impact_filter w with
  | Return _ w' | Raise _ w' =>
      same_disk w w'
      /\ exists evs,
           trace w' = trace w ++ evs
           /\ Forall (of_page impact_filter p) evs
           /\ sent w' = (sent w + requests evs)%nat
           /\ (1 <= requests evs <= MAX_RETRIES)%nat
  | OutOfFuel => False
  end.
Proof.
  pose proof (fetch_page_loop_trace net p impact_filter (seq 0 MAX_RETRIES) w) as Ht.
  pose proof (fetch_page_disk net impact_filter p w) as Hd.
  unfold fetch_page in *.
  destruct (fetch_page_loop _ _ _ _ _) as [a w'|e w'|]; [| |done].
  - destruct Ht as (evs & ? & ? & ? & Hle & Hge). split; [done|].
    exists evs. do 3 (split; [done|]). split; [by apply Hge|exact Hle].
  - destruct Ht as (evs & ? & ? & ? & Hle & Hge). split; [by destruct Hd|].
    exists evs. do 3 (split; [done|]). split; [by apply Hge|exact Hle].
Qed.


(** X3.  When the three requests for a page fail, the client waits
    [RETRY_DELAY] seconds after the first failure and twice as long after
    the second, does not wait after the third, and raises the exception
    with three requests sent. *)
Theorem backoff_doubles_then_raises net p impact_filter w :
  net (sent w) impact_filter p = Failure ->
  net (S (sent w)) impact_filter p = Failure ->
  net (S (S (sent w))) impact_filter p = Failure ->
  exists w',
    fetch_page net p impact_filter w = Raise RequestException w'
    /\ sent w' = (sent w + 3)%nat
    /\ trace w' = trace w ++
         [Post impact_filter p; SleepBackoff RETRY_DELAY;
          Post impact_filter p; SleepBackoff (2 * RETRY_DELAY);
          Post impact_filter p].
Proof.
  intros H0 H1 H2. unfold fetch_page. simpl.
  rewrite H0. simpl. rewrite H1. simpl. rewrite H2. simpl.
  eexists. split; [reflexivity|]. simpl.
  split; [lia|]. by rewrite <- !app_assoc.
Qed.

Lemma backoff_doubles_then_raises_witness :
  exists w',
    fetch_page second_page_down 2 ["HIGH"; "MEDIUM"] fresh
    = Raise RequestException w'
    /\ sent w' = (sent fresh + 3)%nat
    /\ trace w' = trace fresh ++
         [Post ["HIGH"; "MEDIUM"] 2; SleepBackoff RETRY_DELAY;
          Post ["HIGH"; "MEDIUM"] 2; SleepBackoff (2 * RETRY_DELAY);
          Post ["HIGH"; "MEDIUM"] 2].
Proof.
  apply (backoff_doubles_then_raises second_page_down 2 ["HIGH"; "MEDIUM"] fresh);
    reflexivity.
Defined.

(** ** What a sync writes *)

Lemma fetch_category_frame
    net fuel impact_filter xlsx_file max_id_key state w :
  match fetch_category net fuel impact_filter xlsx_file max_id_key state w with
  | Return _ w' | Raise _ w' =>
      state_json w' = state_json w
      /\ utcnow w' = utcnow w
      /\ forall path, path <> xlsx_file -> xlsx w' !! path = xlsx w !! path
  | OutOfFuel => True
  end.
Proof.
  rewrite fetch_category_unfold.
  destruct (watermark state max_id_key) as [e|c]; [done|].
  pose proof (sync_loop_inv net impact_filter (c =? 0) c fuel (start c) w) as Hinv.
  destruct (sync_loop _ _ _ _ _ _ _) as [s w1|e w1|]; [| |done].
  - destruct Hinv as [(Hs & Hx & Hu) _]; [simpl; lia|]. cbv zeta.
    assert (state_json (persisted (opened c xlsx_file w1) (new_findings s)
                          xlsx_file w1) = state_json w
            /\ utcnow (persisted (opened c xlsx_file w1) (new_findings s)
                         xlsx_file w1) = utcnow w
            /\ forall path, path <> xlsx_file ->
                 xlsx (persisted (opened c xlsx_file w1) (new_findings s)
                         xlsx_file w1) !! path = xlsx w !! path) as Hp.
    { unfold persisted. destruct (new_findings s); simpl.
      - by rewrite Hx.
      - split_and!; [done..|]. intros path Hpath.
        rewrite lookup_insert_ne by done. by rewrite Hx. }
    by destruct (py_add _ _).
  - destruct Hinv as [(Hs & Hx & Hu) _]; [simpl; lia|].
    split_and!; [done..|]. intros path _. by rewrite Hx.
Qed.

(** X4.  A sync writes at most the sheet it was given: however it ends, the
    other files, state.json among them, are as they were. *)
Theorem sync_touches_only_its_file
    net fuel impact_filter xlsx_file max_id_key state w :
  match fetch_category net fuel impact_filter xlsx_file max_id_key state w with
  | Return _ w' | Raise _ w' =>
      state_json w' = state_json w
      /\ forall path, path <> xlsx_file -> xlsx w' !! path = xlsx w !! path
  | OutOfFuel => True
  end.
Proof.
  pose proof (fetch_category_frame net fuel impact_filter xlsx_file max_id_key
                state w) as H.
  destruct (fetch_category _ _ _ _ _ _ _); [| |done]; by destruct H as (? & _ & ?).
Qed.

(** X5.  The number a sync returns is the number of rows it has added: with
    0 nothing is written at all (an initial sync that finds nothing creates
    no file); with [n > 0] the file exists afterwards and holds [n] rows
    more than the sheet the sync started from. *)
Theorem rows_written_match_count
    net fuel impact_filter xlsx_file max_id_key state w n state' w' :
  fetch_category net fuel impact_filter xlsx_file max_id_key state w
    = Return (n, state') w' ->
  0 <= n
  /\ (n = 0 -> xlsx w' = xlsx w)
  /\ (0 < n ->
      exists c wb',
        watermark state max_id_key = inr c
        /\ xlsx w' !! xlsx_file = Some wb'
        /\ Z.of_nat (length wb')
           = Z.of_nat (length (opened c xlsx_file w)) + n).
Proof.
  intros (c & s & w1 & k & Hc & _ & (_ & Hx & _) & _ & _ & -> & _ & ->)
    %fetch_category_Return.
  assert (opened c xlsx_file w1 = opened c xlsx_file w) as ->.
  { unfold opened. by rewrite Hx. }
  unfold persisted. destruct (new_findings s) as [|f fs]; simpl.
  - split_and!; [lia|done|lia].
  - split_and!; [lia|lia|]. intros _. eexists c, _. split; [done|].
    rewrite lookup_insert_eq. split; [done|].
    rewrite length_app, length_fmap, length_reverse. simpl. lia.
Qed.

Lemma rows_written_match_count_witness :
  returns
    (fetch_category (serve [bare 9; bare 8]) 1 ["HIGH"; "MEDIUM"] HIGH_MEDIUM_FILE
       "high_medium_max_id" (<["high_medium_max_id" := JStr "7"]> ∅) with_old_sheet)
    (fun r w' =>
       r.1 = 2
       /\ 0 <= r.1
       /\ (r.1 = 0 -> xlsx w' = xlsx with_old_sheet)
       /\ (0 < r.1 ->
           exists c wb',
             watermark (<["high_medium_max_id" := JStr "7"]> ∅)
               "high_medium_max_id" = inr c
             /\ xlsx w' !! HIGH_MEDIUM_FILE = Some wb'
             /\ Z.of_nat (length wb')
                = Z.of_nat (length (opened c HIGH_MEDIUM_FILE with_old_sheet)) + r.1)).
Proof.
  pose proof (rows_written_match_count (serve [bare 9; bare 8]) 1
                ["HIGH"; "MEDIUM"] HIGH_MEDIUM_FILE "high_medium_max_id"
                (<["high_medium_max_id" := JStr "7"]> ∅) with_old_sheet) as Hthm.
  assert (returns
    (fetch_category (serve [bare 9; bare 8]) 1 ["HIGH"; "MEDIUM"] HIGH_MEDIUM_FILE
       "high_medium_max_id" (<["high_medium_max_id" := JStr "7"]> ∅) with_old_sheet)
    (fun r _ => r.1 = 2)) as Hrun by by vm_compute.
  destruct (fetch_category _ _ _ _ _ _ _) as [[n state'] w'|e w'|]; [|done..].
  split; [exact Hrun|]. exact (Hthm n state' w' eq_refl).
Defined.

(** X6.  A sync that returns [n] has added [n] to the cumulative count of
    its category (taken as 0 when the state has none) and has left the count
    of the other category alone. *)
Theorem count_grows_by_new_findings
    net fuel impact_filter xlsx_file max_id_key state w n state' w' :
  max_id_key <> count_key impact_filter ->
  fetch_category net fuel impact_filter xlsx_file max_id_key state w
    = Return (n, state') w' ->
  exists k,
    counted state impact_filter = Some k
    /\ counted state' impact_filter = Some (k + n)
    /\ forall other,
         count_key other <> count_key impact_filter ->
         count_key other <> max_id_key ->
         counted state' other = counted state other.
Proof.
  intros Hne. rewrite fetch_category_unfold.
  destruct (watermark state max_id_key) as [e|c]; [done|].
  destruct (sync_loop _ _ _ _ _ _ _) as [s w1|e w1|]; [|done..].
  cbv zeta. rewrite lookup_insert_ne by done. unfold counted.
  destruct (default (JNum 0) (state !! count_key impact_filter)) as [|k|];
    simpl; [done| |done].
  intros [= <- <- <-]. exists k. split; [done|].
  rewrite lookup_insert_eq. split; [done|].
  intros other H1 H2. by rewrite !lookup_insert_ne.
Qed.

Lemma count_grows_by_new_findings_witness :
  returns
    (fetch_category (serve [bare 9; bare 8]) 1 ["HIGH"; "MEDIUM"] HIGH_MEDIUM_FILE
       "high_medium_max_id"
       (<["high_medium_count" := JNum 5]> (<["high_medium_max_id" := JStr "7"]> ∅))
       with_old_sheet)
    (fun r _ =>
       counted r.2 ["HIGH"; "MEDIUM"] = Some 7
       /\ exists k,
            counted (<["high_medium_count" := JNum 5]>
                       (<["high_medium_max_id" := JStr "7"]> ∅)) ["HIGH"; "MEDIUM"]
            = Some k
            /\ counted r.2 ["HIGH"; "MEDIUM"] = Some (k + r.1)
            /\ forall other,
                 count_key other <> count_key ["HIGH"; "MEDIUM"] ->
                 count_key other <> "high_medium_max_id" ->
                 counted r.2 other
                 = counted (<["high_medium_count" := JNum 5]>
                              (<["high_medium_max_id" := JStr "7"]> ∅)) other).
Proof.
  pose proof (count_grows_by_new_findings (serve [bare 9; bare 8]) 1
                ["HIGH"; "MEDIUM"] HIGH_MEDIUM_FILE "high_medium_max_id"
                (<["high_medium_count" := JNum 5]>
                   (<["high_medium_max_id" := JStr "7"]> ∅)) with_old_sheet)
    as Hthm.
  assert (returns
    (fetch_category (serve [bare 9; bare 8]) 1 ["HIGH"; "MEDIUM"] HIGH_MEDIUM_FILE
       "high_medium_max_id"
       (<["high_medium_count" := JNum 5]> (<["high_medium_max_id" := JStr "7"]> ∅))
       with_old_sheet)
    (fun r _ => counted r.2 ["HIGH"; "MEDIUM"] = Some 7)) as Hrun by by vm_compute.
  destruct (fetch_category _ _ _ _ _ _ _) as [[n state'] w'|e w'|]; [|done..].
  split; [exact Hrun|]. apply (Hthm n state' w'); [by vm_compute|reflexivity].
Defined.

(** X7.  The counter [total_fetched] is the length of [new_findings]
    whenever the page loop returns. *)
Theorem total_fetched_counts_new_findings
    net impact_filter init c fuel w s' w' :
  sync_loop net impact_filter init c fuel (start c) w = Return s' w' ->
  total_fetched s' = Z.of_nat (length (new_findings s')).
Proof.
  intros Hloop.
  pose proof (sync_loop_inv net impact_filter init c fuel (start c) w) as Hinv.
  rewrite Hloop in Hinv.
  destruct Hinv as [_ (kept & Hk & _ & Ht & _)]; [simpl; lia|].
  rewrite Ht, Hk. simpl. lia.
Qed.

Lemma total_fetched_counts_new_findings_witness :
  returns
    (sync_loop (serve [bare 9; bare 8; bare 7]) ["LOW"; "GAS"] false 7 1
       (start 7) fresh)
    (fun s' _ =>
       total_fetched s' = 2
       /\ total_fetched s' = Z.of_nat (length (new_findings s'))).
Proof.
  pose proof (total_fetched_counts_new_findings (serve [bare 9; bare 8; bare 7])
                ["LOW"; "GAS"] false 7 1 fresh) as Hthm.
  assert (returns
    (sync_loop (serve [bare 9; bare 8; bare 7]) ["LOW"; "GAS"] false 7 1
       (start 7) fresh)
    (fun s' _ => total_fetched s' = 2)) as Hrun by by vm_compute.
  destruct (sync_loop _ _ _ _ _ _ _) as [s' w'|e w'|]; [|done..].
  split; [exact Hrun|]. exact (Hthm s' w' eq_refl).
Defined.

(** ** A sync cut short *)

Lemma start_delivers net impact_filter ds c fuel w s w1 :
  delivers net impact_filter ds ->
  sync_loop net impact_filter (c =? 0) c fuel (start c) w = Return s w1 ->
  new_findings s `prefix_of` fetched (c =? 0) c ds.
Proof.
  intros Hnet Hloop.
  pose proof (sync_loop_delivers net impact_filter ds (c =? 0) c fuel (start c) w
                Hnet) as Hpre.
  rewrite Hloop in Hpre. apply Hpre; simpl; try lia.
  split; [done|]. by destruct (c =? 0).
Qed.

(** X8.  A sync that was cut short (a page lost to rate limiting, or a page
    count announced too low) still moves the watermark to the highest id it
    has kept.  So once a sync has kept at least one finding of a listing, a
    further sync of that listing keeps nothing: it stops at the first
    finding, and the findings the first sync did not reach are not fetched
    by it. *)
Theorem cut_short_sync_is_not_resumed
    net fuel fuel' impact_filter xlsx_file max_id_key state w ds n state1 w1 :
  delivers net impact_filter ds ->
  Forall (fun f => 0 < finding_id f) ds ->
  max_id_key <> count_key impact_filter ->
  fetch_category net fuel impact_filter xlsx_file max_id_key state w
    = Return (n, state1) w1 ->
  0 < n ->
  (length ds < 100 * fuel')%nat ->
  exists state2 w2,
    fetch_category (serve ds) fuel' impact_filter xlsx_file max_id_key state1 w1
      = Return (0, state2) w2
    /\ xlsx w2 = xlsx w1
    /\ watermark state2 max_id_key = watermark state1 max_id_key.
Proof.
  intros Hnet Hpos Hne Hrun Hn Hfuel.
  apply fetch_category_Return in Hrun
    as (c & s & w0 & k & Hc & Hloop & _ & Hm & _ & -> & -> & ->).
  pose proof (start_delivers _ _ _ _ _ _ _ _ Hnet Hloop) as Hpre.
  assert (new_findings s `prefix_of` ds) as [rest Hds]
    by (etrans; [exact Hpre|apply fetched_prefix]).
  destruct (new_findings s) as [|f fs] eqn:Hnew; [simpl in Hn; lia|].
  rewrite Hds in Hpos. simpl in Hpos. apply Forall_cons in Hpos as [Hf _].
  assert (finding_id f <= new_max_id s) as Hle.
  { rewrite Hm. apply max_id_ge. set_solver. }
  set (state1 := updated state max_id_key impact_filter (new_max_id s) k).
  set (w1 := persisted _ _ _ _).
  destruct (fetch_category_serve ds fuel' impact_filter xlsx_file max_id_key
              state1 w1 (new_max_id s) k) as (w2 & (_ & Hx & _) & Hrun2);
    [by apply watermark_updated|done|apply counted_updated|done|].
  assert (fetched (new_max_id s =? 0) (new_max_id s) ds = []) as Hnone.
  { destruct (Z.eqb_spec (new_max_id s) 0) as [H0|_]; [lia|].
    rewrite Hds. simpl. by destruct (Z.ltb_spec (new_max_id s) (finding_id f)); [lia|]. }
  rewrite Hnone in Hrun2. simpl in Hrun2.
  eexists _, _. split; [exact Hrun2|]. split; [done|].
  rewrite watermark_updated by done. unfold state1.
  by rewrite watermark_updated.
Qed.

Lemma first_page_only_delivers ds impact_filter :
  delivers (first_page_only ds) impact_filter ds.
Proof.
  intros k p data. unfold first_page_only.
  destruct (Z.eqb_spec p 1) as [->|_]; [|done]. by intros [= <-].
Qed.

Lemma cut_short_sync_is_not_resumed_witness :
  returns
    (fetch_category (first_page_only (newest_first (seqZ 1 150))) 2
       ["HIGH"; "MEDIUM"] HIGH_MEDIUM_FILE "high_medium_max_id" ∅ fresh)
    (fun r w1 =>
       (r.1 = 100
        /\ stored_ids (sheet w1 HIGH_MEDIUM_FILE) = CInt <$> seqZ 51 100)
       /\ exists state2 w2,
            fetch_category (serve (newest_first (seqZ 1 150))) 2
              ["HIGH"; "MEDIUM"] HIGH_MEDIUM_FILE "high_medium_max_id" r.2 w1
            = Return (0, state2) w2
            /\ xlsx w2 = xlsx w1
            /\ watermark state2 "high_medium_max_id"
               = watermark r.2 "high_medium_max_id").
Proof.
  pose proof (cut_short_sync_is_not_resumed
                (first_page_only (newest_first (seqZ 1 150))) 2 2
                ["HIGH"; "MEDIUM"] HIGH_MEDIUM_FILE "high_medium_max_id" ∅ fresh
                (newest_first (seqZ 1 150))) as Hthm.
  assert (returns
    (fetch_category (first_page_only (newest_first (seqZ 1 150))) 2
       ["HIGH"; "MEDIUM"] HIGH_MEDIUM_FILE "high_medium_max_id" ∅ fresh)
    (fun r w1 =>
       r.1 = 100
       /\ stored_ids (sheet w1 HIGH_MEDIUM_FILE) = CInt <$> seqZ 51 100))
    as Hrun by by vm_compute.
  destruct (fetch_category _ _ _ _ _ _ _) as [[n state1] w1|e w1|]; [|done..].
  split; [exact Hrun|]. destruct Hrun as [Hn _]. simpl in Hn.
  apply (Hthm n state1 w1).
  - apply first_page_only_delivers.
  - apply (bool_decide_unpack _). by vm_compute.
  - by vm_compute.
  - reflexivity.
  - lia.
  - vm_compute. lia.
Defined.

(** ** A whole run *)

Lemma count_key_high_medium : count_key ["HIGH"; "MEDIUM"] = "high_medium_count".
Proof. reflexivity. Qed.

Lemma count_key_low_gas : count_key ["LOW"; "GAS"] = "low_gas_count".
Proof. reflexivity. Qed.

(** The steps of a run that returns. *)
Lemma main_Return net fuel w total w' :
  main net fuel w = Return total w' ->
  exists state n1 state1 w1 n2 state2 w2,
    load_state w = Return state w
    /\ fetch_category net fuel ["HIGH"; "MEDIUM"] HIGH_MEDIUM_FILE
         "high_medium_max_id" state w = Return (n1, state1) w1
    /\ fetch_category net fuel ["LOW"; "GAS"] LOW_GAS_FILE
         "low_gas_max_id" state1 w1 = Return (n2, state2) w2
    /\ total = n1 + n2
    /\ state_json w' = Some (<["last_run" := JStr (utcnow w2)]> state2)
    /\ xlsx w' = xlsx w2
    /\ utcnow w' = utcnow w2.
Proof.
  unfold main. cbn [bind].
  assert (exists state, load_state w = Return state w) as [state Hload].
  { unfold load_state. destruct (state_json w); eauto. }
  rewrite Hload.
  destruct (fetch_category _ _ _ _ _ _ w) as [[n1 state1] w1|e1 w1|] eqn:H1;
    [|done..].
  cbn [bind fst snd].
  destruct (fetch_category _ _ _ _ _ _ w1) as [[n2 state2] w2|e2 w2|] eqn:H2;
    [|done..].
  simpl. intros [= <- <-].
  exists state, n1, state1, w1, n2, state2, w2. by split_and!.
Qed.

(** X10.  A run that returns has written state.json once, stamped with the
    time of the run; in it each watermark is a readable integer, not below
    the one the run started from. *)
Theorem run_saves_watermarks net fuel w total w' :
  main net fuel w = Return total w' ->
  exists state state',
    load_state w = Return state w
    /\ load_state w' = Return state' w'
    /\ state' !! "last_run" = Some (JStr (utcnow w))
    /\ forall key, key = "high_medium_max_id" \/ key = "low_gas_max_id" ->
         exists before after,
           watermark state key = inr before
           /\ watermark state' key = inr after
           /\ before <= after.
Proof.
  intros (state & n1 & state1 & w1 & n2 & state2 & w2
          & Hload & Hrun1 & Hrun2 & _ & Hsaved & _ & _)%main_Return.
  pose proof (fetch_category_frame net fuel ["HIGH"; "MEDIUM"] HIGH_MEDIUM_FILE
                "high_medium_max_id" state w) as Hf1.
  pose proof (fetch_category_frame net fuel ["LOW"; "GAS"] LOW_GAS_FILE
                "low_gas_max_id" state1 w1) as Hf2.
  rewrite Hrun1 in Hf1. rewrite Hrun2 in Hf2.
  destruct Hf1 as (_ & Hu1 & _). destruct Hf2 as (_ & Hu2 & _).
  apply fetch_category_Return in Hrun1
    as (c1 & s1 & ? & k1 & Hc1 & _ & _ & Hm1 & _ & _ & -> & _).
  apply fetch_category_Return in Hrun2
    as (c2 & s2 & ? & k2 & Hc2 & _ & _ & Hm2 & _ & _ & -> & _).
  eexists state, _. split; [done|].
  split; [unfold load_state; by rewrite Hsaved|].
  split; [rewrite lookup_insert_eq; congruence|].
  unfold watermark in *. unfold updated in *.
  rewrite count_key_high_medium, count_key_low_gas in *.
  intros key [->| ->].
  - exists c1, (new_max_id s1). split; [done|].
    rewrite !lookup_insert_ne, lookup_insert_eq by done. simpl.
    split; [apply py_int_py_str|]. rewrite Hm1. apply max_id_le.
  - rewrite !lookup_insert_ne in Hc2 by done.
    exists c2, (new_max_id s2). split; [done|].
    rewrite !lookup_insert_ne, lookup_insert_eq by done. simpl.
    split; [apply py_int_py_str|]. rewrite Hm2. apply max_id_le.
Qed.

Lemma run_saves_watermarks_witness :
  returns (main (serve [bare 9; bare 8]) 1 with_old_sheet)
    (fun total w' =>
       total = 4
       /\ exists state state',
            load_state with_old_sheet = Return state with_old_sheet
            /\ load_state w' = Return state' w'
            /\ state' !! "last_run" = Some (JStr (utcnow with_old_sheet))
            /\ forall key, key = "high_medium_max_id" \/ key = "low_gas_max_id" ->
                 exists before after,
                   watermark state key = inr before
                   /\ watermark state' key = inr after
                   /\ before <= after).
Proof.
  pose proof (run_saves_watermarks (serve [bare 9; bare 8]) 1 with_old_sheet)
    as Hthm.
  assert (returns (main (serve [bare 9; bare 8]) 1 with_old_sheet)
            (fun total _ => total = 4)) as Hrun by by vm_compute.
  destruct (main _ _ _) as [total w'|e w'|]; [|done..].
  split; [exact Hrun|]. exact (Hthm total w' eq_refl).
Defined.

(** X11.  The total a run reports is the growth of the two cumulative
    counts that it saves. *)
Theorem run_total_is_count_growth net fuel w total w' :
  main net fuel w = Return total w' ->
  exists state state' k1 k2 k1' k2',
    load_state w = Return state w
    /\ load_state w' = Return state' w'
    /\ counted state ["HIGH"; "MEDIUM"] = Some k1
    /\ counted state ["LOW"; "GAS"] = Some k2
    /\ counted state' ["HIGH"; "MEDIUM"] = Some k1'
    /\ counted state' ["LOW"; "GAS"] = Some k2'
    /\ total = (k1' - k1) + (k2' - k2)
    /\ k1 <= k1' /\ k2 <= k2'.
Proof.
  intros (state & n1 & state1 & w1 & n2 & state2 & w2
          & Hload & Hrun1 & Hrun2 & -> & Hsaved & _ & _)%main_Return.
  rewrite !fetch_category_unfold in *.
  destruct (watermark state "high_medium_max_id") as [?|c1]; [done|].
  destruct (sync_loop _ _ _ _ _ _ w) as [s1 ?|? ?|]; [|done..].
  cbv zeta in Hrun1. rewrite lookup_insert_ne in Hrun1 by done.
  destruct (default (JNum 0) (state !! count_key ["HIGH"; "MEDIUM"]))
    as [|k1|] eqn:Hk1; simpl in Hrun1; [done| |done].
  injection Hrun1 as <- <- <-.
  destruct (watermark _ "low_gas_max_id") as [?|c2]; [done|].
  destruct (sync_loop _ _ _ _ _ _ _) as [s2 ?|? ?|]; [|done..].
  cbv zeta in Hrun2. rewrite !lookup_insert_ne in Hrun2 by done.
  destruct (default (JNum 0) (state !! count_key ["LOW"; "GAS"]))
    as [|k2|] eqn:Hk2; simpl in Hrun2; [done| |done].
  injection Hrun2 as <- <- <-.
  eexists state, _, k1, k2, _, _. split; [done|].
  split; [unfold load_state; by rewrite Hsaved|].
  unfold counted. rewrite Hk1, Hk2.
  rewrite count_key_high_medium, count_key_low_gas in *.
  rewrite !lookup_insert_ne, lookup_insert_eq by done.
  rewrite (lookup_insert_ne _ "last_run" "low_gas_count") by done.
  rewrite lookup_insert_eq. simpl.
  split_and!; try done; lia.
Qed.

Lemma run_total_is_count_growth_witness :
  returns (main (serve [bare 9; bare 8]) 1 with_old_sheet)
    (fun total w' =>
       total = 4
       /\ exists state state' k1 k2 k1' k2',
            load_state with_old_sheet = Return state with_old_sheet
            /\ load_state w' = Return state' w'
            /\ counted state ["HIGH"; "MEDIUM"] = Some k1
            /\ counted state ["LOW"; "GAS"] = Some k2
            /\ counted state' ["HIGH"; "MEDIUM"] = Some k1'
            /\ counted state' ["LOW"; "GAS"] = Some k2'
            /\ total = (k1' - k1) + (k2' - k2)
            /\ k1 <= k1' /\ k2 <= k2').
Proof.
  pose proof (run_total_is_count_growth (serve [bare 9; bare 8]) 1 with_old_sheet)
    as Hthm.
  assert (returns (main (serve [bare 9; bare 8]) 1 with_old_sheet)
            (fun total _ => total = 4)) as Hrun by by vm_compute.
  destruct (main _ _ _) as [total w'|e w'|]; [|done..].
  split; [exact Hrun|]. exact (Hthm total w' eq_refl).
Defined.

(** A sheet in order stays in order through a sync of a listing delivered
    newest first. *)
Lemma sync_keeps_order
    net fuel impact_filter xlsx_file max_id_key state w ds c n state' w' :
  delivers net impact_filter ds ->
  descending ds ->
  Forall (fun f => is_Some (id f)) ds ->
  max_id_key <> count_key impact_filter ->
  watermark state max_id_key = inr c ->
  in_order (sheet w xlsx_file) c ->
  fetch_category net fuel impact_filter xlsx_file max_id_key state w
    = Return (n, state') w' ->
  exists c', watermark state' max_id_key = inr c'
             /\ in_order (sheet w' xlsx_file) c'.
Proof.
  intros Hnet Hdesc Hid Hne Hw Hord
    (c0 & s & w1 & k & Hc & Hloop & (_ & Hx & _) & Hm & Hall & _ & -> & ->)
    %fetch_category_Return.
  rewrite Hw in Hc. injection Hc as <-.
  assert (new_findings s `prefix_of` ds) as Hprefix.
  { etrans; [by eapply start_delivers|apply fetched_prefix]. }
  exists (new_max_id s). split; [by apply watermark_updated|].
  rewrite Hm. unfold sheet, persisted.
  destruct (new_findings s) as [|f fs] eqn:Hnew.
  { simpl. by rewrite Hx. }
  cbn [xlsx]. rewrite lookup_insert_eq. cbn [default from_option Datatypes.id].
  apply in_order_append.
  - unfold opened. rewrite Hx. destruct (c =? 0); [apply in_order_headers|done].
  - by eapply descending_prefix.
  - destruct Hprefix as [rest ->]. by apply Forall_app in Hid as [? _].
  - unfold opened. destruct (Z.eqb_spec c 0) as [->|Hc0]; [by left|].
    right. by apply Hall.
Qed.

(** X12.  Order is an invariant of whole runs: when state.json and the two
    sheets are in order (each sheet's ids increase strictly and stay at or
    below the watermark saved for its category) and the endpoint delivers
    each category newest first, a run that returns leaves them in order.
    An empty disk is in order. *)
Theorem run_keeps_disk_in_order net fuel w total w' high_medium low_gas :
  delivers net ["HIGH"; "MEDIUM"] high_medium ->
  descending high_medium ->
  Forall (fun f => is_Some (id f)) high_medium ->
  delivers net ["LOW"; "GAS"] low_gas ->
  descending low_gas ->
  Forall (fun f => is_Some (id f)) low_gas ->
  disk_in_order w ->
  main net fuel w = Return total w' ->
  disk_in_order w'.
Proof.
  intros HnetH HdH HidH HnetL HdL HidL
    (state0 & cH & cL & Hload0 & HwH & HwL & HoH & HoL)
    (state & n1 & state1 & w1 & n2 & state2 & w2
     & Hload & Hrun1 & Hrun2 & _ & Hsaved & Hxs & _)%main_Return.
  rewrite Hload0 in Hload. injection Hload as <-.
  pose proof (fetch_category_frame net fuel ["HIGH"; "MEDIUM"] HIGH_MEDIUM_FILE
                "high_medium_max_id" state0 w) as Hf1.
  pose proof (fetch_category_frame net fuel ["LOW"; "GAS"] LOW_GAS_FILE
                "low_gas_max_id" state1 w1) as Hf2.
  rewrite Hrun1 in Hf1. rewrite Hrun2 in Hf2.
  destruct Hf1 as (_ & _ & Hx1). destruct Hf2 as (_ & _ & Hx2).
  assert ("high_medium_max_id" <> count_key ["HIGH"; "MEDIUM"]) as HneH
    by by vm_compute.
  assert ("low_gas_max_id" <> count_key ["LOW"; "GAS"]) as HneL
    by by vm_compute.
  destruct (sync_keeps_order _ _ _ _ _ _ _ _ _ _ _ _ HnetH HdH HidH
              HneH HwH HoH Hrun1) as (cH' & HwH' & HoH').
  assert (watermark state1 "low_gas_max_id" = inr cL) as HwL1.
  { apply fetch_category_Return in Hrun1
      as (? & ? & ? & ? & _ & _ & _ & _ & _ & _ & -> & _).
    unfold watermark. by rewrite updated_other by by vm_compute. }
  assert (in_order (sheet w1 LOW_GAS_FILE) cL) as HoL1.
  { unfold sheet. by rewrite Hx1. }
  destruct (sync_keeps_order _ _ _ _ _ _ _ _ _ _ _ _ HnetL HdL HidL
              HneL HwL1 HoL1 Hrun2) as (cL' & HwL' & HoL').
  assert (watermark state2 "high_medium_max_id" = inr cH') as HwH2.
  { apply fetch_category_Return in Hrun2
      as (? & ? & ? & ? & _ & _ & _ & _ & _ & _ & -> & _).
    unfold watermark. rewrite updated_other by by vm_compute. exact HwH'. }
  exists (<["last_run" := JStr (utcnow w2)]> state2), cH', cL'.
  split; [unfold load_state; by rewrite Hsaved|].
  unfold watermark in *. rewrite !lookup_insert_ne by done.
  split; [done|]. split; [done|].
  unfold sheet in *. rewrite Hxs. split; [|done].
  by rewrite Hx2.
Qed.

Lemma fresh_in_order : disk_in_order fresh.
Proof.
  eexists _, 0, 0. split; [reflexivity|].
  split_and!; [reflexivity..| |]; apply in_order_headers.
Qed.

Lemma serve_both_delivers_high_medium high_medium low_gas :
  delivers (serve_both high_medium low_gas) ["HIGH"; "MEDIUM"] high_medium.
Proof. by intros k p data [= <-]. Qed.

Lemma serve_both_delivers_low_gas high_medium low_gas :
  delivers (serve_both high_medium low_gas) ["LOW"; "GAS"] low_gas.
Proof. by intros k p data [= <-]. Qed.

Lemma run_keeps_disk_in_order_witness :
  returns (main (serve_both [bare 9; bare 8] [bare 5]) 1 fresh)
    (fun total w' =>
       (total = 3
        /\ stored_ids (sheet w' HIGH_MEDIUM_FILE) = [CInt 8; CInt 9]
        /\ stored_ids (sheet w' LOW_GAS_FILE) = [CInt 5])
       /\ disk_in_order w').
Proof.
  pose proof (run_keeps_disk_in_order (serve_both [bare 9; bare 8] [bare 5]) 1
                fresh) as Hthm.
  assert (returns (main (serve_both [bare 9; bare 8] [bare 5]) 1 fresh)
            (fun total w' =>
               total = 3
               /\ stored_ids (sheet w' HIGH_MEDIUM_FILE) = [CInt 8; CInt 9]
               /\ stored_ids (sheet w' LOW_GAS_FILE) = [CInt 5]))
    as Hrun by by vm_compute.
  destruct (main _ _ _) as [total w'|e w'|]; [|done..].
  split; [exact Hrun|].
  apply (Hthm total w' [bare 9; bare 8] [bare 5]).
  - apply serve_both_delivers_high_medium.
  - repeat constructor.
  - repeat constructor; by eexists.
  - apply serve_both_delivers_low_gas.
  - repeat constructor.
  - repeat constructor; by eexists.
  - apply fresh_in_order.
  - reflexivity.
Defined.

(** X9.  A run of [main] that ends with an exception, whichever it is and
    wherever it was raised, has not written state.json: the next run loads
    the state this run had loaded, watermarks and counts included. *)
Theorem failed_run_saves_no_state net fuel w e w' :
  main net fuel w = Raise e w' ->
  state_json w' = state_json w
  /\ exists state,
       load_state w = Return state w /\ load_state w' = Return state w'.
Proof.
  intros Hs%raise_leaves_state_unsaved. split; [done|].
  unfold load_state. rewrite Hs. destruct (state_json w); eauto.
Qed.

Lemma failed_run_saves_no_state_witness :
  raises (main second_page_down 2 with_old_sheet)
    (fun e w' =>
       e = RequestException
       /\ state_json w' = state_json with_old_sheet
       /\ exists state,
            load_state with_old_sheet = Return state with_old_sheet
            /\ load_state w' = Return state w').
Proof.
  pose proof (failed_run_saves_no_state second_page_down 2 with_old_sheet)
    as Hthm.
  assert (raises (main second_page_down 2 with_old_sheet)
            (fun e _ => e = RequestException)) as Hrun by by vm_compute.
  destruct (main _ _ _) as [total w'|e w'|]; [done| |done].
  split; [exact Hrun|]. exact (Hthm e w' eq_refl).
Defined.

(** X13.  A sync decides what is new from the watermark in the state alone,
    never from the sheet.  Run a second time from the same state (as the
    next run does after a run that ended with an exception before
    [save_state]), an incremental sync appends the same rows once more. *)
Theorem same_state_appends_same_rows_again
    ds fuel impact_filter xlsx_file max_id_key state w c k :
  watermark state max_id_key = inr c ->
  c <> 0 ->
  max_id_key <> count_key impact_filter ->
  counted state impact_filter = Some k ->
  descending ds ->
  Forall (fun f => 0 < finding_id f) ds ->
  (length ds < 100 * fuel)%nat ->
  let new := filter (fun f => c < finding_id f) ds in
  exists state1 w1 state2 w2,
    fetch_category (serve ds) fuel impact_filter xlsx_file max_id_key state w
      = Return (Z.of_nat (length new), state1) w1
    /\ fetch_category (serve ds) fuel impact_filter xlsx_file max_id_key state w1
      = Return (Z.of_nat (length new), state2) w2
    /\ sheet w2 xlsx_file
       = sheet w xlsx_file ++ (finding_to_row <$> reverse new)
                           ++ (finding_to_row <$> reverse new).
Proof.
  intros Hw Hc Hne Hk Hdesc Hpos Hfuel new.
  destruct (sync_appends_newer ds fuel impact_filter xlsx_file max_id_key
              state w c k Hw Hne Hk Hdesc Hpos ltac:(done) Hfuel)
    as (state1 & w1 & Hrun1 & Hsheet1 & _).
  destruct (sync_appends_newer ds fuel impact_filter xlsx_file max_id_key
              state w1 c k Hw Hne Hk Hdesc Hpos ltac:(done) Hfuel)
    as (state2 & w2 & Hrun2 & Hsheet2 & _).
  exists state1, w1, state2, w2. split; [exact Hrun1|]. split; [exact Hrun2|].
  fold new in Hsheet1, Hsheet2. by rewrite Hsheet2, Hsheet1, <- app_assoc.
Qed.

Lemma same_state_appends_same_rows_again_witness :
  let new := filter (fun f => 7 < finding_id f) [bare 9; bare 8; bare 7] in
  exists state1 w1 state2 w2,
    fetch_category (serve [bare 9; bare 8; bare 7]) 1 ["HIGH"; "MEDIUM"]
      HIGH_MEDIUM_FILE "high_medium_max_id"
      (<["high_medium_max_id" := JStr "7"]> ∅) with_old_sheet
      = Return (Z.of_nat (length new), state1) w1
    /\ fetch_category (serve [bare 9; bare 8; bare 7]) 1 ["HIGH"; "MEDIUM"]
      HIGH_MEDIUM_FILE "high_medium_max_id"
      (<["high_medium_max_id" := JStr "7"]> ∅) w1
      = Return (Z.of_nat (length new), state2) w2
    /\ sheet w2 HIGH_MEDIUM_FILE
       = sheet with_old_sheet HIGH_MEDIUM_FILE
           ++ (finding_to_row <$> reverse new)
           ++ (finding_to_row <$> reverse new).
Proof.
  apply (same_state_appends_same_rows_again [bare 9; bare 8; bare 7] 1
           ["HIGH"; "MEDIUM"] HIGH_MEDIUM_FILE "high_medium_max_id"
           (<["high_medium_max_id" := JStr "7"]> ∅) with_old_sheet 7 0).
  - reflexivity.
  - lia.
  - by vm_compute.
  - reflexivity.
  - repeat constructor.
  - repeat constructor.
  - simpl. lia.
Defined.

(** ** The ids read back from a sheet *)

Lemma get_existing_ids_sheet xlsx_file w :
  get_existing_ids xlsx_file w
  = Return (foldl add_id ∅ (tail (sheet w xlsx_file))) w.
Proof.
  unfold get_existing_ids, sheet. by destruct (xlsx w !! xlsx_file).
Qed.

Lemma add_id_row ids f :
  0 < finding_id f ->
  add_id ids (finding_to_row f) = ids ∪ {[py_str (finding_id f)]}.
Proof.
  unfold add_id, finding_id, finding_to_row.
  destruct (id f) as [n|]; simpl; [|lia].
  intros Hn. by destruct (Z.eqb_spec n 0); [lia|].
Qed.

Lemma foldl_add_id_rows fs ids :
  Forall (fun f => 0 < finding_id f) fs ->
  foldl add_id ids (finding_to_row <$> fs) = ids ∪ id_strings fs.
Proof.
  unfold id_strings. intros H. revert ids.
  induction H as [|f fs Hf _ IH]; intros ids; simpl.
  - by rewrite (right_id_L ∅ (∪)).
  - by rewrite IH, add_id_row, (assoc_L (∪)) by done.
Qed.

Lemma id_strings_reverse fs : id_strings (reverse fs) = id_strings fs.
Proof.
  unfold id_strings. apply set_eq. intros x.
  rewrite !elem_of_list_to_set, fmap_reverse. apply elem_of_reverse.
Qed.

(** X14.  What a sync writes, [get_existing_ids] reads back: on a sheet that
    has its header row, the ids found after a sync are the ids found before
    it together with the id of every finding the sync has added, each
    spelled as Python's [str] spells the integer. *)
Theorem synced_ids_are_read_back
    ds fuel impact_filter xlsx_file max_id_key state w c k :
  watermark state max_id_key = inr c ->
  max_id_key <> count_key impact_filter ->
  counted state impact_filter = Some k ->
  descending ds ->
  Forall (fun f => 0 < finding_id f) ds ->
  (c = 0 -> xlsx w !! xlsx_file = None) ->
  sheet w xlsx_file <> [] ->
  (length ds < 100 * fuel)%nat ->
  let new := filter (fun f => c < finding_id f) ds in
  exists n state' w' before after,
    get_existing_ids xlsx_file w = Return before w
    /\ fetch_category (serve ds) fuel impact_filter xlsx_file max_id_key state w
       = Return (n, state') w'
    /\ get_existing_ids xlsx_file w' = Return after w'
    /\ after = before ∪ id_strings new.
Proof.
  intros Hw Hne Hk Hdesc Hpos Hnone Hhdr Hfuel new.
  destruct (sync_appends_newer ds fuel impact_filter xlsx_file max_id_key
              state w c k Hw Hne Hk Hdesc Hpos Hnone Hfuel)
    as (state' & w' & Hrun & Hsheet & _).
  fold new in Hrun, Hsheet.
  exists (Z.of_nat (length new)), state', w'. eexists _, _.
  split; [apply get_existing_ids_sheet|]. split; [exact Hrun|].
  split; [apply get_existing_ids_sheet|].
  rewrite Hsheet. destruct (sheet w xlsx_file) as [|hdr rows]; [done|]. simpl.
  rewrite foldl_app, foldl_add_id_rows, id_strings_reverse; [done|].
  apply Forall_reverse. unfold new.
  apply Forall_forall. intros f Hf%list_elem_of_filter.
  rewrite Forall_forall in Hpos. apply Hpos, Hf.
Qed.

Lemma synced_ids_are_read_back_witness :
  let new := filter (fun f => 7 < finding_id f) [bare 9; bare 8; bare 7] in
  exists n state' w' before after,
    get_existing_ids HIGH_MEDIUM_FILE with_old_sheet = Return before with_old_sheet
    /\ fetch_category (serve [bare 9; bare 8; bare 7]) 1 ["HIGH"; "MEDIUM"]
         HIGH_MEDIUM_FILE "high_medium_max_id"
         (<["high_medium_max_id" := JStr "7"]> ∅) with_old_sheet
       = Return (n, state') w'
    /\ get_existing_ids HIGH_MEDIUM_FILE w' = Return after w'
    /\ after = before ∪ id_strings new.
Proof.
  apply (synced_ids_are_read_back [bare 9; bare 8; bare 7] 1
           ["HIGH"; "MEDIUM"] HIGH_MEDIUM_FILE "high_medium_max_id"
           (<["high_medium_max_id" := JStr "7"]> ∅) with_old_sheet 7 0).
  - reflexivity.
  - by vm_compute.
  - reflexivity.
  - repeat constructor.
  - repeat constructor.
  - lia.
  - by vm_compute.
  - simpl. lia.
Defined.

(** ** Rows and columns *)

Lemma finding_to_row_length f : length (finding_to_row f) = length HEADERS.
Proof. reflexivity. Qed.

(** X15.  A sync keeps the sheet rectangular, whatever the endpoint
    answers: when every row of the sheet under the path has one cell per
    column of [HEADERS], so has every row of it after the sync, however the
    sync ends. *)
Theorem sync_keeps_sheet_rectangular
    net fuel impact_filter xlsx_file max_id_key state w :
  Forall (fun r => length r = length HEADERS) (sheet w xlsx_file) ->
  match fetch_category net fuel impact_filter xlsx_file max_id_key state w with
  | Return _ w' | Raise _ w' =>
      Forall (fun r => length r = length HEADERS) (sheet w' xlsx_file)
  | OutOfFuel => True
  end.
Proof.
  intros Hrect. rewrite fetch_category_unfold.
  destruct (watermark state max_id_key) as [e0|c]; [done|].
  pose proof (sync_loop_inv net impact_filter (c =? 0) c fuel (start c) w)
    as Hinv.
  destruct (sync_loop _ _ _ _ _ _ _) as [s w1|e1 w1|]; [| |done].
  - destruct Hinv as [(_ & Hx & _) _]; [simpl; lia|]. cbv zeta.
    assert (Forall (fun r => length r = length HEADERS)
              (sheet (persisted (opened c xlsx_file w1) (new_findings s)
                        xlsx_file w1) xlsx_file)) as Hp.
    { unfold persisted, sheet in *. destruct (new_findings s) as [|f fs].
      - by rewrite Hx.
      - simpl. rewrite lookup_insert_eq. simpl.
        apply Forall_app. split.
        + unfold opened. rewrite Hx.
          destruct (c =? 0); [by repeat constructor|done].
        + apply Forall_fmap, Forall_forall. intros g _.
          apply finding_to_row_length. }
    by destruct (py_add _ _).
  - destruct Hinv as [(_ & Hx & _) _]; [simpl; lia|].
    unfold sheet in *. by rewrite Hx.
Qed.

Lemma sync_keeps_sheet_rectangular_witness :
  Forall (fun r => length r = length HEADERS)
    (sheet with_old_sheet HIGH_MEDIUM_FILE)
  /\ returns
       (fetch_category (serve [bare 9; bare 8]) 1 ["HIGH"; "MEDIUM"]
          HIGH_MEDIUM_FILE "high_medium_max_id"
          (<["high_medium_max_id" := JStr "7"]> ∅) with_old_sheet)
       (fun r w' =>
          r.1 = 2
          /\ Forall (fun r => length r = length HEADERS)
               (sheet w' HIGH_MEDIUM_FILE)).
Proof.
  assert (Forall (fun r => length r = length HEADERS)
            (sheet with_old_sheet HIGH_MEDIUM_FILE)) as Hrect
    by (by repeat constructor).
  split; [exact Hrect|].
  pose proof (sync_keeps_sheet_rectangular (serve [bare 9; bare 8]) 1
                ["HIGH"; "MEDIUM"] HIGH_MEDIUM_FILE "high_medium_max_id"
                (<["high_medium_max_id" := JStr "7"]> ∅) with_old_sheet Hrect)
    as Hthm.
  assert (returns
    (fetch_category (serve [bare 9; bare 8]) 1 ["HIGH"; "MEDIUM"] HIGH_MEDIUM_FILE
       "high_medium_max_id" (<["high_medium_max_id" := JStr "7"]> ∅) with_old_sheet)
    (fun r _ => r.1 = 2)) as Hrun by by vm_compute.
  destruct (fetch_category _ _ _ _ _ _ _) as [[n state'] w'|e w'|]; [|done..].
  split; [exact Hrun|]. exact Hthm.
Defined.

(** ** The state file *)

(** X16.  A watermark survives the state file: an integer written into the
    state as [str] writes it, saved by [save_state] and loaded again by
    [load_state], is read back by [int] as the same integer, whatever
    state.json held before; the loaded state carries the time of saving
    under last_run and is otherwise the state that was saved. *)
Theorem watermark_survives_save_and_load state max_id_key n w :
  max_id_key <> "last_run" ->
  exists w1 state1,
    save_state (<[max_id_key := JStr (py_str n)]> state) w = Return tt w1
    /\ load_state w1 = Return state1 w1
    /\ watermark state1 max_id_key = inr n
    /\ state1 !! "last_run" = Some (JStr (utcnow w))
    /\ forall key, key <> "last_run" -> key <> max_id_key ->
         state1 !! key = state !! key.
Proof.
  intros Hne. eexists _, _. split; [reflexivity|]. split; [reflexivity|].
  split_and!.
  - unfold watermark. rewrite lookup_insert_ne, lookup_insert_eq by done.
    apply py_int_py_str.
  - by rewrite lookup_insert_eq.
  - intros key H1 H2. by rewrite !lookup_insert_ne.
Qed.

Lemma watermark_survives_save_and_load_witness :
  exists w1 state1,
    save_state (<["high_medium_max_id" := JStr (py_str (-12))]> ∅) with_old_sheet
      = Return tt w1
    /\ load_state w1 = Return state1 w1
    /\ watermark state1 "high_medium_max_id" = inr (-12)
    /\ state1 !! "last_run" = Some (JStr (utcnow with_old_sheet))
    /\ forall key, key <> "last_run" -> key <> "high_medium_max_id" ->
         state1 !! key = (∅ : gmap string jval) !! key.
Proof.
  apply (watermark_survives_save_and_load ∅ "high_medium_max_id" (-12)
           with_old_sheet).
  by vm_compute.
Defined.

(** ** The trace of a sync *)

Lemma back_to_back_sleep a e b :
  (forall f q, e <> Post f q) ->
  back_to_back a = false -> back_to_back b = false ->
  back_to_back (a ++ e :: b) = false.
Proof.
  intros He Ha Hb. induction a as [|x a IH]; simpl in *.
  - destruct e; try done. by destruct (He impact_filter page0).
  - destruct x; try (by apply IH).
    destruct a as [|y a]; simpl in *.
    + destruct e; try done. by destruct (He impact_filter0 page1).
    + destruct y; try done; by apply IH.
Qed.

Lemma walks_from_app impact_filter p a b :
  Forall (of_page impact_filter p) a ->
  walks_from impact_filter p b ->
  walks_from impact_filter p (a ++ b).
Proof.
  intros Ha Hb. induction Ha as [|e a He _ IH]; [done|].
  destruct e; simpl in *; try done. by destruct He.
Qed.

Lemma fetch_page_loop_paced net p impact_filter attempts w :
  match fetch_page_loop net p impact_filter attempts w with
  | Return _ w' | Raise _ w' =>
      exists evs, trace w' = trace w ++ evs /\ back_to_back evs = false
  | OutOfFuel => False
  end.
Proof.
  revert w. induction attempts as [|attempt rest IH]; intros w; simpl.
  - exists []. by rewrite app_nil_r.
  - destruct (net (sent w) impact_filter p) as [reset|data|]; simpl.
    + destruct (reset_time reset) as [e|t]; simpl.
      { by exists [Post impact_filter p]. }
      match goal with |- context [fetch_page_loop _ _ _ rest ?w1] =>
        specialize (IH w1); destruct (fetch_page_loop net p impact_filter rest w1)
      end; try done;
        destruct IH as (evs & Ht & Hb);
        exists (Post impact_filter p :: SleepRateLimited :: evs);
        simpl in *; by rewrite Ht, <- !app_assoc.
    + destruct (default 20 (rateLimit data ≫= remaining) <? 2); simpl.
      * exists [Post impact_filter p; SleepLowQuota]. by rewrite <- app_assoc.
      * by exists [Post impact_filter p].
    + destruct (attempt <? 2)%nat; simpl.
      * match goal with |- context [fetch_page_loop _ _ _ rest ?w1] =>
          specialize (IH w1); destruct (fetch_page_loop net p impact_filter rest w1)
        end; try done;
          destruct IH as (evs & Ht & Hb);
          eexists (Post impact_filter p :: SleepBackoff _ :: evs);
          simpl in *; by rewrite Ht, <- !app_assoc.
      * by exists [Post impact_filter p].
Qed.

Lemma fetch_page_walk net p impact_filter w :
  match fetch_page net p impact_filter w with
  | Return _ w' | Raise _ w' =>
      exists evs,
        trace w' = trace w ++ evs
        /\ Forall (of_page impact_filter p) evs
        /\ back_to_back evs = false
  | OutOfFuel => False
  end.
Proof.
  pose proof (fetch_page_loop_trace net p impact_filter (seq 0 MAX_RETRIES) w) as Ht.
  pose proof (fetch_page_loop_paced net p impact_filter (seq 0 MAX_RETRIES) w) as Hp.
  unfold fetch_page.
  destruct (fetch_page_loop _ _ _ _ _) as [a w'|e w'|]; [| |done];
    destruct Ht as (evs & Ht & Hall & _); destruct Hp as (evs' & Ht' & Hb);
    rewrite Ht in Ht'; apply app_inv_head in Ht'; subst evs';
    by exists evs.
Qed.

Lemma sync_loop_walk net impact_filter init c fuel s w :
  match sync_loop net impact_filter init c fuel s w with
  | Return _ w' | Raise _ w' =>
      exists evs,
        trace w' = trace w ++ evs
        /\ walks_from impact_filter (page s) evs
        /\ back_to_back evs = false
  | OutOfFuel => True
  end.
Proof.
  revert s w. induction fuel as [|fuel IH]; intros s w.
  - destruct (should_stop s) eqn:Hs.
    + rewrite sync_loop_stopped by done. exists []. by rewrite app_nil_r.
    + by rewrite sync_loop_no_fuel.
  - rewrite sync_loop_unfold.
    destruct (should_stop s); [exists []; by rewrite app_nil_r|].
    pose proof (fetch_page_walk net (page s) impact_filter w) as Hw.
    assert (forall evs, Forall (of_page impact_filter (page s)) evs ->
              walks_from impact_filter (page s) evs) as Hwalk.
    { intros evs Hall. rewrite <- (app_nil_r evs). by apply walks_from_app. }
    destruct (fetch_page net (page s) impact_filter w) as [[data|] w1|e w1|];
      [| | |done]; destruct Hw as (evs & Ht & Hall & Hb).
    + destruct (falsy data); [exists evs; by auto|].
      destruct (default [] (findings data)) as [|f fs] eqn:Hfs;
        [exists evs; by auto|].
      cbv zeta.
      destruct (page s >=? default 0 (metadata data ≫= totalPages));
        [exists evs; by auto|].
      match goal with |- context [sync_loop _ _ _ _ fuel ?s1 ?w2] =>
        specialize (IH s1 w2);
        assert (page s1 = page s + 1) as Hpage
          by (unfold next_page; cbn [page]; by rewrite scan_page);
        destruct (sync_loop net impact_filter init c fuel s1 w2)
      end; [| |done];
        destruct IH as (evs' & Ht' & Hwalk' & Hb');
        exists (evs ++ SleepDelay REQUEST_DELAY :: evs');
        simpl in Ht'; rewrite Ht', Ht, <- !app_assoc; simpl;
        (split; [done|]); rewrite Hpage in Hwalk';
        (split; [by apply walks_from_app|by apply back_to_back_sleep]).
    + exists evs. by auto.
    + exists evs. by auto.
Qed.

(** X17.  A sync walks the pages in order and never sends two requests
    back to back, whatever the endpoint answers and however the sync ends:
    every request it sends is for its own impact filter, the first for
    page 1, and the page asked moves on by exactly one at each pause of
    [REQUEST_DELAY] seconds between pages (so a page is asked again only as
    a retry); between two requests there is always a sleep. *)
Theorem sync_walks_pages_and_paces_requests
    net fuel impact_filter xlsx_file max_id_key state w :
  match fetch_category net fuel impact_filter xlsx_file max_id_key state w with
  | Return _ w' | Raise _ w' =>
      exists evs,
        trace w' = trace w ++ evs
        /\ walks_from impact_filter 1 evs
        /\ back_to_back evs = false
  | OutOfFuel => True
  end.
Proof.
  rewrite fetch_category_unfold.
  destruct (watermark state max_id_key) as [e|c].
  { exists []. by rewrite app_nil_r. }
  pose proof (sync_loop_walk net impact_filter (c =? 0) c fuel (start c) w) as Hw.
  destruct (sync_loop _ _ _ _ _ _ _) as [s w1|e w1|]; [|done..].
  cbv zeta.
  assert (trace (persisted (opened c xlsx_file w1) (new_findings s) xlsx_file w1)
          = trace w1) as Hp.
  { unfold persisted. by destruct (new_findings s). }
  destruct (py_add _ _); by rewrite Hp.
Qed.

(** ** A count that is not a number *)

(** X18.  The sheet is saved before the cumulative count is updated.  When
    the count in the state is not a number (a string or null in
    state.json), the sync still requests the pages and writes the new
    rows, and only then raises [TypeError]; state.json is untouched, so
    the watermark that would tell the next run about these rows is lost. *)
Theorem bad_count_raises_after_saving
    ds fuel impact_filter xlsx_file max_id_key state w c :
  watermark state max_id_key = inr c ->
  max_id_key <> count_key impact_filter ->
  counted state impact_filter = None ->
  (length ds < 100 * fuel)%nat ->
  let new := fetched (c =? 0) c ds in
  exists w',
    fetch_category (serve ds) fuel impact_filter xlsx_file max_id_key state w
      = Raise TypeError w'
    /\ state_json w' = state_json w
    /\ (new <> [] ->
        xlsx w' !! xlsx_file
        = Some (opened c xlsx_file w ++ (finding_to_row <$> reverse new))).
Proof.
  intros Hw Hne Hk Hfuel new.
  rewrite fetch_category_unfold, Hw.
  destruct (sync_loop_serve ds impact_filter (c =? 0) c fuel (start c) w)
    as (s & w1 & Hloop & Hnew); simpl; try done; try lia.
  { by destruct (c =? 0). }
  pose proof (sync_loop_inv (serve ds) impact_filter (c =? 0) c fuel (start c) w)
    as Hinv.
  rewrite Hloop in *.
  destruct Hinv as [(Hs & Hx & _) _]; [simpl; lia|].
  cbv zeta. rewrite lookup_insert_ne by done.
  unfold counted in Hk. fold new in Hnew. rewrite Hnew.
  assert (opened c xlsx_file w1 = opened c xlsx_file w) as ->.
  { unfold opened. by rewrite Hx. }
  destruct (default (JNum 0) (state !! count_key impact_filter)) as [|k'|];
    [|done|]; simpl; eexists; (split; [reflexivity|]);
    unfold persisted; destruct new as [|f fs]; simpl; (split; [done|]);
    try done; intros _; by rewrite lookup_insert_eq.
Qed.

Lemma bad_count_raises_after_saving_witness :
  let state : gmap string jval :=
    <["high_medium_count" := JStr "1"]> (<["high_medium_max_id" := JStr "7"]> ∅) in
  let new := fetched (7 =? 0) 7 [bare 9; bare 8; bare 7] in
  exists w',
    fetch_category (serve [bare 9; bare 8; bare 7]) 1 ["HIGH"; "MEDIUM"]
      HIGH_MEDIUM_FILE "high_medium_max_id" state with_old_sheet
      = Raise TypeError w'
    /\ state_json w' = state_json with_old_sheet
    /\ (new <> [] ->
        xlsx w' !! HIGH_MEDIUM_FILE
        = Some (opened 7 HIGH_MEDIUM_FILE with_old_sheet
                  ++ (finding_to_row <$> reverse new))).
Proof.
  apply (bad_count_raises_after_saving [bare 9; bare 8; bare 7] 1
           ["HIGH"; "MEDIUM"] HIGH_MEDIUM_FILE "high_medium_max_id"
           (<["high_medium_count" := JStr "1"]>
              (<["high_medium_max_id" := JStr "7"]> ∅)) with_old_sheet 7).
  - by vm_compute.
  - by vm_compute.
  - by vm_compute.
  - simpl. lia.
Defined.

(** ** Retries *)






(** ** The cost of a sync *)

Lemma fetch_page_serve_sent ds p impact_filter w :
  exists w', fetch_page (serve ds) p impact_filter w
             = Return (Some (page_data ds p)) w' /\ sent w' = S (sent w).
Proof. eexists. split; reflexivity. Qed.

Lemma newer_boundary_length c fs :
  has_boundary c fs = true -> (length (newer c fs) < length fs)%nat.
Proof.
  induction fs as [|f fs IH]; simpl; [done|].
  destruct (Z.ltb_spec c (finding_id f)) as [Hlt|Hge]; simpl; [|lia].
  apply Z.leb_gt in Hlt. rewrite Hlt. simpl. intros H. specialize (IH H). lia.
Qed.

Lemma stop_within_page init c ds k :
  fetched init c (take k ds) = take k ds ->
  negb init && has_boundary c (take 100 (drop k ds)) = true ->
  (k <= length (fetched init c ds) < k + 100)%nat.
Proof.
  intros Hkept [Hi Hb]%andb_true_iff. apply negb_true_iff in Hi. subst init.
  simpl in *.
  pose proof (newer_boundary_length c _ Hb) as Hlen.
  assert (k < length ds)%nat as Hk.
  { destruct (decide (k < length ds)%nat) as [|Hge]; [done|].
    rewrite drop_ge in Hb by lia. done. }
  assert (newer c ds = take k ds ++ newer c (take 100 (drop k ds))) as ->.
  { rewrite <- (take_drop k ds) at 1. rewrite newer_app_kept by done.
    rewrite <- (take_drop 100 (drop k ds)) at 1.
    by rewrite newer_boundary. }
  rewrite length_app, !length_take in *. lia.
Qed.

Lemma sync_loop_serve_sent ds impact_filter init c fuel s w :
  should_stop s = false ->
  1 <= page s ->
  page s = 1 \/ page s <= pages_of ds ->
  new_findings s = take (offset (page s)) ds ->
  fetched init c (take (offset (page s)) ds) = take (offset (page s)) ds ->
  (init = false -> c <= new_max_id s) ->
  (length ds - offset (page s) < 100 * fuel)%nat ->
  exists s' w',
    sync_loop (serve ds) impact_filter init c fuel s w = Return s' w'
    /\ Z.of_nat (sent w')
       = Z.of_nat (sent w) + pages_needed ds (fetched init c ds) - page s + 1.
Proof.
  revert s w.
  induction fuel as [|fuel IH]; intros s w Hstop Hp Hin Hnew Hkept Hc Hfuel;
    [lia|].
  rewrite sync_loop_unfold, Hstop.
  destruct (fetch_page_serve_sent ds (page s) impact_filter w) as (w1 & -> & Hsent).
  change (falsy (page_data ds (page s))) with false. cbv iota.
  change (default [] (findings (page_data ds (page s)))) with (page_of ds (page s)).
  change (default 0 (metadata (page_data ds (page s)) ≫= totalPages))
    with (pages_of ds).
  rewrite page_of_offset.
  pose proof (prefix_length _ _ (fetched_prefix init c ds)) as Hle.
  destruct (take 100 (drop (offset (page s)) ds)) as [|f fs] eqn:Hpage.
  - exists s, w1. split; [done|].
    apply take_nil_inv in Hpage as [?|Hd]; [done|].
    apply drop_nil_inv in Hd. rewrite Hsent.
    revert Hin Hd Hle. unfold pages_needed, pages_of, offset, PAGE_SIZE.
    intros. Z.div_mod_to_equations. lia.
  - assert (offset (page s) < length ds)%nat as Hin'.
    { destruct (decide (offset (page s) < length ds)%nat) as [|Hge]; [done|].
      rewrite drop_ge in Hpage by lia. done. }
    rewrite <- Hpage. clear f fs Hpage.
    pose proof (scan_fetched init c (take 100 (drop (offset (page s)) ds)) s Hc)
      as Hscan.
    destruct (page_step init c ds (offset (page s)) s Hnew Hkept Hc Hstop)
      as [[Hs' Hn']|(Hs' & Hn' & Hk')];
      set (s' := scan init c (take 100 (drop (offset (page s)) ds)) s) in *.
    + assert (Z.of_nat (sent w1)
              = Z.of_nat (sent w) + pages_needed ds (fetched init c ds)
                - page s + 1) as Hgoal.
      { rewrite Hscan in Hs'. simpl in Hs'. rewrite Hstop in Hs'. simpl in Hs'.
        pose proof (stop_within_page init c ds (offset (page s)) Hkept Hs')
          as Hwithin.
        rewrite Hsent. revert Hwithin Hin' Hp.
        unfold pages_needed, pages_of, offset, PAGE_SIZE.
        intros. Z.div_mod_to_equations. lia. }
      destruct (Z.geb_spec (page s) (pages_of ds)).
      * by exists s', w1.
      * eexists _, _. split; [cbv zeta; by apply sync_loop_stopped|done].
    + assert (init = false -> c <= new_max_id s') as Hc'.
      { intros Hi. etrans; [exact (Hc Hi)|].
        apply (extends_max init c). unfold s'. by apply extends_scan. }
      destruct (Z.geb_spec (page s) (pages_of ds)) as [Hlast|Hmore].
      * exists s', w1. split; [done|].
        pose proof (last_page ds (page s) Hp Hlast) as Hall.
        rewrite take_ge in Hk' by done. rewrite Hk', Hsent.
        revert Hin' Hall Hlast Hp. unfold pages_needed, pages_of, offset, PAGE_SIZE.
        intros. Z.div_mod_to_equations. lia.
      * pose proof (not_last_page ds (page s) Hp Hmore).
        assert (page s' = page s) as Hpage by apply scan_page.
        cbv zeta.
        destruct (IH (next_page s') (log (SleepDelay REQUEST_DELAY) w1))
          as (s2 & w2 & Hrun & Hsent2);
          simpl; rewrite ?Hpage, ?offset_next by done; try done; try lia.
        exists s2, w2. split; [done|].
        rewrite Hsent2. simpl. rewrite Hpage, Hsent. lia.
Qed.

(** X20.  What a sync costs.  Against an endpoint that serves the listing
    page by page, a sync sends one request per page up to the page that
    holds the first finding at or below the watermark, and none beyond the
    last page: a store that is up to date costs one request, an initial
    sync one request per page of the listing (one for an empty listing). *)
Theorem sync_asks_each_needed_page_once
    ds fuel impact_filter xlsx_file max_id_key state w c k :
  watermark state max_id_key = inr c ->
  max_id_key <> count_key impact_filter ->
  counted state impact_filter = Some k ->
  (length ds < 100 * fuel)%nat ->
  exists r w',
    fetch_category (serve ds) fuel impact_filter xlsx_file max_id_key state w
      = Return r w'
    /\ Z.of_nat (sent w')
       = Z.of_nat (sent w) + pages_needed ds (fetched (c =? 0) c ds)
    /\ (fetched (c =? 0) c ds = [] -> sent w' = S (sent w))
    /\ (c = 0 -> Z.of_nat (sent w') = Z.of_nat (sent w) + Z.max 1 (pages_of ds)).
Proof.
  intros Hw Hne Hk Hfuel.
  rewrite fetch_category_unfold, Hw.
  destruct (sync_loop_serve_sent ds impact_filter (c =? 0) c fuel (start c) w)
    as (s & w1 & -> & Hsent); simpl; try done; try lia; try (by left).
  { by destruct (c =? 0). }
  rewrite lookup_insert_ne by done.
  unfold counted in Hk.
  destruct (default (JNum 0) (state !! count_key impact_filter)) as [|k'|];
    try done.
  simpl. eexists _, _. split; [reflexivity|].
  assert (sent (persisted (opened c xlsx_file w1) (new_findings s) xlsx_file w1)
          = sent w1) as ->.
  { unfold persisted. by destruct (new_findings s). }
  change (page (start c)) with 1 in Hsent.
  pose proof (prefix_length _ _ (fetched_prefix (c =? 0) c ds)) as Hle.
  split; [lia|]. split.
  - intros Hnone. rewrite Hnone in Hsent. revert Hsent.
    unfold pages_needed, pages_of, PAGE_SIZE. simpl length.
    intros. Z.div_mod_to_equations. lia.
  - intros ->. change (fetched (0 =? 0) 0 ds) with ds in Hsent.
    rewrite Hsent. unfold pages_needed, pages_of, PAGE_SIZE.
    Z.div_mod_to_equations. lia.
Qed.

Lemma sync_asks_each_needed_page_once_witness :
  exists r w',
    fetch_category (serve [bare 9; bare 8; bare 7]) 1 ["HIGH"; "MEDIUM"]
      HIGH_MEDIUM_FILE "high_medium_max_id"
      (<["high_medium_max_id" := JStr "7"]> ∅) with_old_sheet
      = Return r w'
    /\ Z.of_nat (sent w')
       = Z.of_nat (sent with_old_sheet)
         + pages_needed [bare 9; bare 8; bare 7]
             (fetched (7 =? 0) 7 [bare 9; bare 8; bare 7])
    /\ (fetched (7 =? 0) 7 [bare 9; bare 8; bare 7] = [] ->
        sent w' = S (sent with_old_sheet))
    /\ (7 = 0 ->
        Z.of_nat (sent w')
        = Z.of_nat (sent with_old_sheet)
          + Z.max 1 (pages_of [bare 9; bare 8; bare 7])).
Proof.
  apply (sync_asks_each_needed_page_once [bare 9; bare 8; bare 7] 1
           ["HIGH"; "MEDIUM"] HIGH_MEDIUM_FILE "high_medium_max_id"
           (<["high_medium_max_id" := JStr "7"]> ∅) with_old_sheet 7 0).
  - reflexivity.
  - by vm_compute.
  - reflexivity.
  - simpl. lia.
Defined.
